(** * Nuitka post-processing: Windows resource embedding

    A shallow embedding of [nuitka/PostProcessing.py]: the ctypes structures
    of the ICO container, the icon reader [_addWindowsIconFromIcons], and the
    two drivers [executePostProcessingResources] and [executePostProcessing],
    followed by the properties of the resource pipeline. *)

From Stdlib Require Import ZArith Strings.Byte Strings.Ascii DecimalString DecimalPos.
From stdpp Require Import gmap strings list fin_maps sorting.

Open Scope Z_scope.

(** ** Bytes and little-endian integers *)

Abbreviation bytes := (list byte).

Definition byte_of_Z (z : Z) : byte :=
  default x00 (Byte.of_N (Z.to_N (z mod 256))).

Definition Z_of_byte (b : byte) : Z := Z.of_N (Byte.to_N b).

(** [to_le n z]: the [n] low-order bytes of [z], least significant first.
    ctypes stores an integer in a field without any range check, so the
    value is taken modulo [2^(8n)]. *)
Fixpoint to_le (n : nat) (z : Z) : bytes :=
  match n with
  | O => []
  | S n' => byte_of_Z z :: to_le n' (z / 256)
  end.

Fixpoint of_le (bs : bytes) : Z :=
  match bs with
  | [] => 0
  | b :: bs' => Z_of_byte b + 256 * of_le bs'
  end.

(** Two's complement reading of a little-endian field. *)
Definition of_le_signed (bs : bytes) : Z :=
  let u := of_le bs in
  let w := 8 * Z.of_nat (length bs) in
  if u <? 2 ^ (w - 1) then u else u - 2 ^ w.

(** ** The fragment of [ctypes] the module uses *)

Module ctypes.

Inductive ctype := c_char | c_short | c_int.

Definition sizeof_ctype (t : ctype) : nat :=
  match t with
  | c_char => 1
  | c_short => 2
  | c_int => 4
  end%nat.

(** A [ctypes.Structure] subclass: its [_fields_] and optional [_pack_]. *)
Record Structure := {
  _pack_ : option nat;
  _fields_ : list (string * ctype)
}.

Definition align_up (off a : nat) : nat := ((off + a - 1) `div` a * a)%nat.

(** A field is aligned on its size, capped by [_pack_] when that is set. *)
Definition field_align (s : Structure) (t : ctype) : nat :=
  match _pack_ s with
  | Some p => (sizeof_ctype t `min` p)%nat
  | None => sizeof_ctype t
  end.

Fixpoint layout_from (s : Structure) (off : nat) (fs : list (string * ctype))
  : list (string * (ctype * nat)) :=
  match fs with
  | [] => []
  | (name, t) :: fs' =>
      let o := align_up off (field_align s t) in
      (name, (t, o)) :: layout_from s (o + sizeof_ctype t) fs'
  end.

Definition layout (s : Structure) : list (string * (ctype * nat)) :=
  layout_from s 0 (_fields_ s).

Definition end_of_fields (s : Structure) : nat :=
  foldl (fun e f => (e `max` (f.2.2 + sizeof_ctype f.2.1))%nat) 0%nat (layout s).

Definition struct_align (s : Structure) : nat :=
  foldl (fun a f => (a `max` field_align s f.2)%nat) 1%nat (_fields_ s).

Definition sizeof (s : Structure) : nat :=
  align_up (end_of_fields s) (struct_align s).

Fixpoint find_field (name : string) (l : list (string * (ctype * nat)))
  : option (ctype * nat) :=
  match l with
  | [] => None
  | (n, d) :: l' => if String.eqb n name then Some d else find_field name l'
  end.

(** An instance is its memory: [sizeof s] bytes. *)
Definition write_at (off : nat) (bs : bytes) (buf : bytes) : bytes :=
  take off buf ++ bs ++ drop (off + length bs) buf.

(** Reading a field: a [c_char] is seen as the ordinal of its one byte,
    [c_short] and [c_int] are signed. *)
Definition getattr (s : Structure) (buf : bytes) (name : string) : Z :=
  match find_field name (layout s) with
  | Some (t, off) =>
      let raw := take (sizeof_ctype t) (drop off buf) in
      match t with
      | c_char => of_le raw
      | c_short | c_int => of_le_signed raw
      end
  | None => 0
  end.

Definition setattr (s : Structure) (buf : bytes) (name : string) (v : Z) : bytes :=
  match find_field name (layout s) with
  | Some (t, off) => write_at off (to_le (sizeof_ctype t) v) buf
  | None => buf
  end.

(** [c_struct()]: a zero-filled instance. *)
Definition new (s : Structure) : bytes := replicate (sizeof s) x00.

(** [c_struct(name=value, ...)]: the keyword arguments are stored in turn. *)
Definition init (s : Structure) (kwargs : list (string * Z)) : bytes :=
  foldl (fun buf kv => setattr s buf kv.1 kv.2) (new s) kwargs.

End ctypes.

Import ctypes.

(** ** The three structures of the module *)

Definition IconDirectoryHeader : Structure :=
  {| _pack_ := None;
     _fields_ := [("reserved", c_short); ("type", c_short); ("count", c_short)] |}.

Definition IconDirectoryEntry : Structure :=
  {| _pack_ := None;
     _fields_ := [("width", c_char); ("height", c_char); ("colors", c_char);
                  ("reserved", c_char); ("planes", c_short);
                  ("bit_count", c_short); ("image_size", c_int);
                  ("image_offset", c_int)] |}.

Definition IconGroupDirectoryEntry : Structure :=
  {| _pack_ := Some 2%nat;
     _fields_ := [("width", c_char); ("height", c_char); ("colors", c_char);
                  ("reserved", c_char); ("planes", c_short);
                  ("bit_count", c_short); ("image_size", c_int);
                  ("id", c_short)] |}.

(** Modelled from the spec: [convertStructureToBytes] lives in
    [nuitka.utils.WindowsResources], which is not part of the sources at
    hand.  The codec "serializes" a structure "byte-for-byte", so it is the
    memory of the instance, unchanged. *)
Definition convertStructureToBytes (c_value : bytes) : bytes := c_value.

(** The instance built at lines 193-202 for one icon and one image id. *)
Definition make_group_entry (width height colors reserved planes bit_count
                             image_size id : Z) : bytes :=
  init IconGroupDirectoryEntry
    [("width", width); ("height", height); ("colors", colors);
     ("reserved", reserved); ("planes", planes); ("bit_count", bit_count);
     ("image_size", image_size); ("id", id)].

(** ** Python strings *)

Definition nl : string := String (ascii_of_nat 10) "".
Definition dquote : string := String (ascii_of_nat 34) "".

(** ["%d" % z] *)
Definition fmt_d (z : Z) : string := NilZero.string_of_int (Z.to_int z).

Definition hex_digit (n : N) : ascii :=
  ascii_of_N (if (n <? 10)%N then 48 + n else 87 + n).

(** [repr(c)] for one character of a [str], ASCII only: the quote in use
    and the backslash are escaped, control characters are written
    symbolically or as [\xNN]. *)
Definition repr_char (quote : ascii) (c : ascii) : string :=
  let n := N_of_ascii c in
  let bs := String (ascii_of_nat 92) "" in
  if Ascii.eqb c quote || (n =? 92)%N then bs +:+ String c ""
  else if (n =? 10)%N then bs +:+ "n"
  else if (n =? 13)%N then bs +:+ "r"
  else if (n =? 9)%N then bs +:+ "t"
  else if (n <? 32)%N || (n =? 127)%N
       then bs +:+ "x" +:+ String (hex_digit (n / 16)) (String (hex_digit (n mod 16)) "")
  else String c "".

Fixpoint mem_char (c : ascii) (s : string) : bool :=
  match s with
  | EmptyString => false
  | String a s' => Ascii.eqb a c || mem_char c s'
  end.

Fixpoint repr_body (quote : ascii) (s : string) : string :=
  match s with
  | EmptyString => ""
  | String c s' => repr_char quote c +:+ repr_body quote s'
  end.

(** ["%r" % s] for a [str]: single quotes, unless the text has a single
    quote and no double quote. *)
Definition fmt_r (s : string) : string :=
  let sq := ascii_of_nat 39 in
  let dq := ascii_of_nat 34 in
  let quote := if mem_char sq s && negb (mem_char dq s) then dq else sq in
  String quote "" +:+ repr_body quote s +:+ String quote "".

(** [s.endswith(suffix)] *)
Definition endswith (s suffix : string) : bool :=
  let n := String.length s in
  let k := String.length suffix in
  (k <=? n)%nat && String.eqb (String.substring (n - k) k s) suffix.

(** [s[:-k]] *)
Definition drop_last (k : nat) (s : string) : string :=
  String.substring 0 (String.length s - k) s.

(** [s.rsplit(sep, 1)] for a one-character [sep] that occurs in [s]: the
    text before the last occurrence and the text after it. *)
Fixpoint rsplit1 (sep : ascii) (s : string) : option (string * string) :=
  match s with
  | EmptyString => None
  | String c s' =>
      match rsplit1 sep s' with
      | Some (before, after) => Some (String c before, after)
      | None => if Ascii.eqb c sep then Some ("", s') else None
      end
  end.

(** The white space [int] skips at both ends of ASCII text: the space and
    the characters 9 to 13. *)
Definition is_space (c : ascii) : bool :=
  let n := N_of_ascii c in
  (n =? 32)%N || ((9 <=? n)%N && (n <=? 13)%N).

Definition is_digit (c : ascii) : bool :=
  let n := N_of_ascii c in (48 <=? n)%N && (n <=? 57)%N.

Fixpoint lstrip (cs : list ascii) : list ascii :=
  match cs with
  | c :: cs' => if is_space c then lstrip cs' else cs
  | [] => []
  end.

Definition strip (cs : list ascii) : list ascii :=
  reverse (lstrip (reverse (lstrip cs))).

(** Decimal digits, single underscores allowed between two digits. *)
Fixpoint digits_value (acc : Z) (after_digit : bool) (cs : list ascii) : option Z :=
  match cs with
  | [] => if after_digit then Some acc else None
  | c :: cs' =>
      if is_digit c
      then digits_value (10 * acc + (Z.of_N (N_of_ascii c) - 48)) true cs'
      else if Ascii.eqb c "_" && after_digit
      then digits_value acc false cs'
      else None
  end.

(** [int(s)] in base ten for ASCII text, every character below 128, as
    Python 3.6 and later read it: white space at both ends is skipped, one
    sign may come first, then digits; [None] stands for the [ValueError].
    Text with other characters is outside this model of [int], as is the
    limit Python 3.11 put on the number of digits. *)
Definition python_int (s : string) : option Z :=
  match strip (String.list_ascii_of_string s) with
  | "+"%char :: cs => digits_value 0 false cs
  | "-"%char :: cs => Z.opp <$> digits_value 0 false cs
  | cs => digits_value 0 false cs
  end.

(** [l[start:stop]] with Python's clamping of out-of-range and negative
    bounds. *)
Definition slice_bound (i n : Z) : Z :=
  if i <? 0 then Z.max 0 (i + n) else Z.min i n.

Definition slice {A} (l : list A) (start stop : Z) : list A :=
  let n := Z.of_nat (length l) in
  let a := slice_bound start n in
  let b := slice_bound stop n in
  take (Z.to_nat (b - a)) (drop (Z.to_nat a) l).

(** ** The world the module acts on *)

Inductive exn :=
| ValueError (msg : string)
| FileNotFoundError (filename : string)
| OSError (msg : string)
| ExternalError (msg : string).

(** The resource kinds imported from [nuitka.utils.WindowsResources]. *)
Inductive resource_kind := RT_ICON | RT_GROUP_ICON | RT_RCDATA.

(** A manifest object: where it came from ([None] for the default one, the
    executable it was read from otherwise) and the two rights that
    [addUacAdmin] and [addUacUiAccess] switch on. *)
Record Manifest := {
  manifest_source : option string;
  uac_admin : bool;
  uac_ui_access : bool
}.

Definition version_tuple : Type := Z * Z * Z * Z.

(** What the run does to its surroundings, in the order it does it.  The
    helpers of other modules ([addResourceToFile], the manifest and version
    writers, [copyResourcesFromFileToFile], ...) are recorded as calls with
    their arguments. *)
Inductive event :=
| Info (msg : string)
| Warning (msg : string)
| Open (filename : string)
| Read (filename : string) (pos : nat) (size : Z)
| Seek (filename : string) (offset : Z)
| GetFileContents (filename : string)
| GetManifest (filename : string)
| ImRead (filename : string)
| MakePath (path : string)
| ImWrite (filename : string)
| AddResource (target_filename : string) (kind : resource_kind)
              (res_name lang_id : Z) (data : bytes)
| ManifestAddResource (target_filename : string) (manifest : Manifest)
| AddVersionInfo (target_filename : string)
                 (string_values : list (string * string))
                 (product_version file_version : option version_tuple)
                 (file_date : Z * Z) (is_exe : bool)
| CopyResources (source_filename target_filename : string)
                (resource_kinds : list resource_kind)
| InstallNameTool (filename : string) (mapping : list (string * string))
                  (rpath : string)
| RemoveFileExecutablePermission (filename : string)
| Unlink (filename : string)
| PutTextFileContents (filename contents : string).

(** The files, and the module-level dictionary [version_resources]. *)
Record state := {
  fs : gmap string bytes;
  version_resources : gmap string string
}.

Definition set_fs (f : gmap string bytes → gmap string bytes) (s : state) : state :=
  {| fs := f (fs s); version_resources := version_resources s |}.

Definition set_version_resources (f : gmap string string → gmap string string)
    (s : state) : state :=
  {| fs := fs s; version_resources := f (version_resources s) |}.

(** How a call ends: it returns, the logger's [sysexit] ends the process
    with a message, or an exception nobody catches goes up. *)
Inductive outcome (A : Type) :=
| Return (a : A)
| SysExit (msg : string)
| Raise (e : exn).
Arguments Return {A} a.
Arguments SysExit {A} msg.
Arguments Raise {A} e.

(** A computation: from a state to an outcome, the state it leaves and the
    events it produced. *)
Definition M (A : Type) : Type := state → outcome A * state * list event.

#[global] Instance M_ret : MRet M := λ A a s, (Return a, s, []).

#[global] Instance M_bind : MBind M := λ A B f m s,
  match m s with
  | (Return a, s1, t1) =>
      match f a s1 with
      | (o, s2, t2) => (o, s2, t1 ++ t2)
      end
  | (SysExit msg, s1, t1) => (SysExit msg, s1, t1)
  | (Raise e, s1, t1) => (Raise e, s1, t1)
  end.

Definition emit (e : event) : M unit := λ s, (Return (), s, [e]).
Definition sysexit {A} (msg : string) : M A := λ s, (SysExit msg, s, []).
Definition raise {A} (e : exn) : M A := λ s, (Raise e, s, []).
Definition get_state : M state := λ s, (Return s, s, []).
Definition modify (f : state → state) : M unit := λ s, (Return (), f s, []).

Definition events {A} (r : outcome A * state * list event) : list event := r.2.
Definition result {A} (r : outcome A * state * list event) : outcome A := r.1.1.
Definition final {A} (r : outcome A * state * list event) : state := r.1.2.

(** An open binary file: its name, its bytes and the read position. *)
Record file := {
  file_name : string;
  file_data : bytes;
  file_pos : nat
}.

(** [open(filename, "rb")] *)
Definition open (filename : string) : M file :=
  s ← get_state;
  match fs s !! filename with
  | Some data =>
      emit (Open filename);;
      mret {| file_name := filename; file_data := data; file_pos := 0 |}
  | None => raise (FileNotFoundError filename)
  end.

(** [f.read(size)]: up to [size] bytes from the position, all the rest for
    [-1]; a smaller [size] is a [ValueError]. *)
Definition file_read (f : file) (size : Z) : M (bytes * file) :=
  if size <? -1 then raise (ValueError "read length must be non-negative or -1")
  else
    let rest := drop (file_pos f) (file_data f) in
    let chunk := if size =? -1 then rest else take (Z.to_nat size) rest in
    emit (Read (file_name f) (file_pos f) size);;
    mret (chunk, {| file_name := file_name f; file_data := file_data f;
                    file_pos := file_pos f + length chunk |}).

(** [f.seek(offset, 0)]: a negative [offset] is refused by the system. *)
Definition file_seek (f : file) (offset : Z) : M file :=
  if offset <? 0 then raise (OSError "[Errno 22] Invalid argument")
  else
    emit (Seek (file_name f) offset);;
    mret {| file_name := file_name f; file_data := file_data f;
            file_pos := Z.to_nat offset |}.

(** [getFileContents(filename, mode="rb")] *)
Definition getFileContents (filename : string) : M bytes :=
  s ← get_state;
  match fs s !! filename with
  | Some data => emit (GetFileContents filename);; mret data
  | None => raise (FileNotFoundError filename)
  end.

(** Modelled from the spec: [addResourceToFile] of
    [nuitka.utils.WindowsResources] is not part of the sources at hand; it
    "inserts/overwrites the named resource" of the target.  The call is
    recorded with its arguments and returns: the ways the writer itself can
    fail (a target that does not exist, a resource section that cannot be
    opened, a payload that is too large) are not modelled, so what is
    proved of a run holds as far as the writer calls go through. *)
Definition addResourceToFile (target_filename : string) (data : bytes)
    (kind : resource_kind) (lang_id res_name : Z) : M unit :=
  emit (AddResource target_filename kind res_name lang_id data).

(** ** Configuration and collaborators *)

(** [nuitka.Options], as far as the module asks. *)
Record Options := {
  getIconPaths : list string;
  getWindowsIconExecutablePath : option string;
  getWindowsSplashScreen : option string;
  shallAskForWindowsAdminRights : bool;
  shallAskForWindowsUIAccessRights : bool;
  getWindowsVersionInfoStrings : list (string * string);
  getWindowsProductVersion : option version_tuple;
  getWindowsFileVersion : option version_tuple;
  shallMakeModule : bool;
  shallUseStaticLibPython : bool;
  shallTreatUninstalledPython : bool
}.

(** The optional [imageio] package: [imread] decodes a file or raises,
    [imwrite] gives the bytes of the ICO file it writes. *)
Record imageio_module := {
  imread : string → gmap string bytes → exn + bytes;
  imwrite : bytes → bytes
}.

(** [os.path], which depends on the platform. *)
Record os_path_module := {
  normcase : string → string;
  join : string → string → string;
  dirname : string → string;
  basename : string → string
}.

Record Environment := {
  options : Options;
  os_path : os_path_module;
  isWin32Windows : bool;
  getOS : string;
  python_version : Z;
  python_version_str : string;
  getPythonABI : string;
  sys_prefix : string;
  sys_executable : string;
  getResultFullpath : bool → string;
  getSourceDirectoryPath : bool → string;
  getResultRunFilename : bool → string;
  getConstantBlobFilename : string → string;
  getTargetPythonDLLPath : string;
  getExternalUsePath : string → string;
  imageio : option imageio_module;
  (** the number of resources [copyResourcesFromFileToFile] finds and copies *)
  copyResourcesFromFileToFile : string → string → list resource_kind → gmap string bytes → Z;
  (** what [addVersionInfoResource] returns *)
  addVersionInfoResource : list (string * string) → option version_tuple →
                           option version_tuple → gmap string string;
  (** the memory that follows a [bytes] object, byte by byte: [memmove]
      reads it when the object is shorter than the structure *)
  memory_after : bytes → nat → byte
}.

Section PostProcessing.

Context (env : Environment).

Let opts := options env.
Let path := os_path env.

(** [readFromFile(readable, c_struct)]: the chunk that was read, and for
    a short chunk the memory behind it, make up the structure. *)
Definition readFromFile (readable : file) (c_struct : Structure) : M (bytes * file) :=
  let result := new c_struct in
  '(chunk, readable) ← file_read readable (Z.of_nat (sizeof c_struct));
  let missing := (length result - length chunk)%nat in
  mret (chunk ++ (memory_after env chunk <$> seq 0 missing), readable).

(** Lines 113-118: an [icon_spec] is a path or [path#index]. *)
Definition split_icon_spec (icon_spec : string) : M (string * option Z) :=
  if mem_char "#" icon_spec then
    match rsplit1 "#" icon_spec with
    | Some (icon_path, icon_index) =>
        match python_int icon_index with
        | Some i => mret (icon_path, Some i)
        | None => raise (ValueError ("invalid literal for int() with base 10: "
                                     +:+ String.substring 0 200 (fmt_r icon_index)))
        end
    | None => mret (icon_spec, None)
    end
  else mret (icon_spec, None).

(** Lines 122-160: a file that is not an ICO file is converted to one by
    [imageio]; the path of the file to read is returned. *)
Definition convert_icon (onefile : bool) (icon_spec icon_path : string)
    (icon_index : option Z) (image_id : Z) : M string :=
  if negb (endswith icon_path ".ico") then
    emit (Info "Not in Windows icon format, converting to it.");;
    (if icon_index is Some _
     then sysexit ("Cannot specify indexes with non-ico format files in '"
                   +:+ icon_spec +:+ "'.")
     else mret ());;
    io ← (match imageio env with
          | Some io => mret io
          | None =>
              sysexit ("Need to install 'imageio' to automatically convert non-ico icon file in '"
                       +:+ icon_spec +:+ "'.")
          end);
    s ← get_state;
    emit (ImRead icon_path);;
    image ← (match imread io icon_path (fs s) with
             | inr image => mret image
             | inl (ValueError _) =>
                 sysexit ("Unsupported file format for imageio in '"
                          +:+ icon_spec +:+ "', use e.g. PNG files.")
             | inl e => raise e
             end);
    let icon_build_path := join path (getSourceDirectoryPath env onefile) "icons" in
    emit (MakePath icon_build_path);;
    let converted_icon_path :=
      join path icon_build_path ("icon-" +:+ fmt_d image_id +:+ ".ico") in
    modify (set_fs <[converted_icon_path := imwrite io image]>);;
    emit (ImWrite converted_icon_path);;
    mret converted_icon_path
  else mret icon_path.

(** Lines 165-168 *)
Fixpoint read_entries (icon_file : file) (n : nat) : M (list bytes * file) :=
  match n with
  | O => mret ([], icon_file)
  | S n' =>
      '(icon, icon_file) ← readFromFile icon_file IconDirectoryEntry;
      '(icons, icon_file) ← read_entries icon_file n';
      mret (icon :: icons, icon_file)
  end.

(** Lines 184-186 *)
Fixpoint read_images (icon_file : file) (icons : list bytes) (images : list bytes)
  : M (list bytes * file) :=
  match icons with
  | [] => mret (images, icon_file)
  | icon :: icons' =>
      icon_file ← file_seek icon_file (getattr IconDirectoryEntry icon "image_offset");
      '(image, icon_file) ←
        file_read icon_file (getattr IconDirectoryEntry icon "image_size");
      read_images icon_file icons' (images ++ [image])
  end.

(** Lines 170-177: the optional selection of one icon. *)
Definition select_icons (icon_path : string) (icon_index : option Z)
    (icons : list bytes) : M (list bytes) :=
  match icon_index with
  | Some icon_index =>
      (if icon_index >? Z.of_nat (length icons)
       then sysexit ("Error, referenced icon index " +:+ fmt_d icon_index
                     +:+ " in file '" +:+ icon_path +:+ "' with only "
                     +:+ fmt_d (Z.of_nat (length icons)) +:+ " icons.")
       else mret ());;
      mret (slice icons icon_index (icon_index + 1))
  | None => mret icons
  end.

(** Lines 162-186: the body of the [with] block.  It gives the header,
    the icons that are kept and the images collected so far. *)
Definition read_icon_file (icon_spec icon_path : string) (icon_index : option Z)
    (images : list bytes) : M (bytes * list bytes * list bytes) :=
  icon_file ← open icon_path;
  (* Read header and icon entries. *)
  '(header, icon_file) ← readFromFile icon_file IconDirectoryHeader;
  '(icons, icon_file) ←
    read_entries icon_file (Z.to_nat (getattr IconDirectoryHeader header "count"));
  icons ← select_icons icon_path icon_index icons;
  emit (Info ("Adding " +:+ fmt_d (Z.of_nat (length icons))
              +:+ " icon(s) from icon file '" +:+ icon_spec +:+ "'."));;
  (* Image data are to be scanned from places specified icon entries *)
  '(images, icon_file) ← read_images icon_file icons images;
  mret (header, icons, images).

(** Lines 193-202 *)
Definition group_entry (icon : bytes) (image_id : Z) : bytes :=
  let get := getattr IconDirectoryEntry icon in
  make_group_entry (get "width") (get "height") (get "colors") (get "reserved")
                   (get "planes") (get "bit_count") (get "image_size") image_id.

(** Lines 190-206 *)
Fixpoint group_parts (icons : list bytes) (parts : list bytes) (image_id : Z)
  : list bytes * Z :=
  match icons with
  | [] => (parts, image_id)
  | icon :: icons' =>
      group_parts icons'
        (parts ++ [convertStructureToBytes (group_entry icon image_id)])
        (image_id + 1)
  end.

(** Lines 113-215: the body of the loop over the icon specifications. *)
Definition add_icon_group (onefile : bool) (result_filename : string)
    (icon_group : Z) (image_id : Z) (images : list bytes) (icon_spec : string)
  : M (Z * list bytes) :=
  '(icon_path, icon_index) ← split_icon_spec icon_spec;
  let icon_path := normcase path icon_path in
  icon_path ← convert_icon onefile icon_spec icon_path icon_index image_id;
  '(header, icons, images) ← read_icon_file icon_spec icon_path icon_index images;
  let parts := [convertStructureToBytes header] in
  let '(parts, image_id) := group_parts icons parts image_id in
  addResourceToFile result_filename (concat parts) RT_GROUP_ICON 0 icon_group;;
  mret (image_id, images).

Fixpoint add_icon_groups (onefile : bool) (result_filename : string)
    (icon_group : Z) (image_id : Z) (images : list bytes)
    (icon_specs : list string) : M (Z * list bytes) :=
  match icon_specs with
  | [] => mret (image_id, images)
  | icon_spec :: icon_specs' =>
      '(image_id, images) ←
        add_icon_group onefile result_filename icon_group image_id images icon_spec;
      add_icon_groups onefile result_filename icon_group image_id images icon_specs'
  end.

(** Lines 217-225: [enumerate(images, 1)] *)
Fixpoint add_images (result_filename : string) (count : Z) (images : list bytes)
  : M unit :=
  match images with
  | [] => mret ()
  | image :: images' =>
      addResourceToFile result_filename image RT_ICON 0 count;;
      add_images result_filename (count + 1) images'
  end.

Definition _addWindowsIconFromIcons (onefile : bool) : M unit :=
  let icon_group := 1 in
  let image_id := 1 in
  let images := [] in
  let result_filename := getResultFullpath env onefile in
  '(image_id, images) ←
    add_icon_groups onefile result_filename icon_group image_id images
                    (getIconPaths opts);
  add_images result_filename 1 images.

(** ** The two drivers *)

Definition getDefaultWindowsExecutableManifest : Manifest :=
  {| manifest_source := None; uac_admin := false; uac_ui_access := false |}.

Definition addUacAdmin (m : Manifest) : Manifest :=
  {| manifest_source := manifest_source m; uac_admin := true;
     uac_ui_access := uac_ui_access m |}.

Definition addUacUiAccess (m : Manifest) : Manifest :=
  {| manifest_source := manifest_source m; uac_admin := uac_admin m;
     uac_ui_access := true |}.

(** [getWindowsExecutableManifest(filename)] *)
Definition getWindowsExecutableManifest (filename : string) : M Manifest :=
  emit (GetManifest filename);;
  mret {| manifest_source := Some filename; uac_admin := false;
          uac_ui_access := false |}.

(** Truth of a Python list or dictionary, and of a tuple or [None]. *)
Definition nonempty {A} (l : list A) : bool := if l is [] then false else true.
Definition given {A} (o : option A) : bool := if o is Some _ then true else false.

(** Lines 239-253 *)
Definition attach_manifest (result_filename : string) (manifest : option Manifest)
  : M unit :=
  let manifest :=
    if shallAskForWindowsAdminRights opts || shallAskForWindowsUIAccessRights opts
    then
      let manifest := default getDefaultWindowsExecutableManifest manifest in
      let manifest :=
        if shallAskForWindowsAdminRights opts then addUacAdmin manifest else manifest in
      let manifest :=
        if shallAskForWindowsUIAccessRights opts then addUacUiAccess manifest
        else manifest in
      Some manifest
    else manifest in
  if manifest is Some manifest
  then emit (ManifestAddResource result_filename manifest)
  else mret ().

(** Lines 255-270 *)
Definition attach_version_info (result_filename : string) : M unit :=
  if nonempty (getWindowsVersionInfoStrings opts)
     || given (getWindowsProductVersion opts)
     || given (getWindowsFileVersion opts)
  then
    emit (AddVersionInfo result_filename (getWindowsVersionInfoStrings opts)
            (getWindowsProductVersion opts) (getWindowsFileVersion opts)
            (0, 0) (negb (shallMakeModule opts)));;
    modify (set_version_resources
              (λ d, addVersionInfoResource env (getWindowsVersionInfoStrings opts)
                      (getWindowsProductVersion opts) (getWindowsFileVersion opts)
                    ∪ d))
  else mret ().

(** Lines 272-291: attach icons from template file if given. *)
Definition attach_icons (result_filename : string) (onefile : bool) : M unit :=
  match getWindowsIconExecutablePath opts with
  | Some template_exe =>
      s ← get_state;
      emit (CopyResources template_exe result_filename [RT_ICON; RT_GROUP_ICON]);;
      let res_copied :=
        copyResourcesFromFileToFile env template_exe result_filename
          [RT_ICON; RT_GROUP_ICON] (fs s) in
      if res_copied =? 0
      then emit (Warning ("The specified icon template executable "
                          +:+ fmt_r template_exe
                          +:+ " didn't contain anything to copy."))
      else emit (Warning ("Copied " +:+ fmt_d res_copied +:+ " icon resources from "
                          +:+ fmt_r template_exe +:+ "."))
  | None => _addWindowsIconFromIcons onefile
  end.

(** Lines 293-304 *)
Definition attach_splash_screen (result_filename : string) : M unit :=
  match getWindowsSplashScreen opts with
  | Some splash_screen_filename =>
      splash_data ← getFileContents splash_screen_filename;
      addResourceToFile result_filename splash_data RT_RCDATA 0 27
  | None => mret ()
  end.

Definition executePostProcessingResources (manifest : option Manifest)
    (onefile : bool) : M unit :=
  let result_filename := getResultFullpath env onefile in
  attach_manifest result_filename manifest;;
  attach_version_info result_filename;;
  attach_icons result_filename onefile;;
  attach_splash_screen result_filename.

Definition os_path_exists (filename : string) : M bool :=
  s ← get_state; mret (bool_decide (is_Some (fs s !! filename))).

(** Lines 315-318 *)
Definition check_result_exists (result_filename : string) : M unit :=
  exists_ ← os_path_exists result_filename;
  if negb exists_
  then sysexit ("Error, scons failed to create the expected file "
                +:+ fmt_r result_filename +:+ ". ")
  else mret ().

(** Lines 332-342: attach the binary blob as a Windows resource. *)
Definition attach_constants_blob (result_filename : string) : M unit :=
  let source_dir := getSourceDirectoryPath env false in
  data ← getFileContents (getConstantBlobFilename env source_dir);
  addResourceToFile result_filename data RT_RCDATA 0 3.

(** Lines 320-342 *)
Definition attach_windows_resources (result_filename : string) : M unit :=
  if isWin32Windows env then
    (if negb (shallMakeModule opts) then
       manifest ← (if python_version env <? 768 (* 0x300 *)
                   then manifest ← getWindowsExecutableManifest (sys_executable env);
                        mret (Some manifest)
                   else mret None);
       executePostProcessingResources manifest false
     else mret ());;
    attach_constants_blob result_filename
  else mret ().

(** Lines 346-371 *)
Definition update_library_paths (result_filename : string) : M unit :=
  if String.eqb (getOS env) "Darwin" && negb (shallMakeModule opts)
     && negb (shallUseStaticLibPython opts)
  then
    let python_abi_version := python_version_str env +:+ getPythonABI env in
    let python_dll_filename := "libpython" +:+ python_abi_version +:+ ".dylib" in
    let python_lib_path := join path (sys_prefix env) "lib" in
    emit (InstallNameTool result_filename
            [(python_dll_filename, join path python_lib_path python_dll_filename);
             ("@rpath/Python3.framework/Versions/" +:+ python_version_str env
              +:+ "/Python3",
              join path python_lib_path python_dll_filename)]
            python_lib_path)
  else mret ().

(** Lines 375-385 *)
Definition fix_module_file (result_filename : string) : M unit :=
  (if negb (isWin32Windows env) && shallMakeModule opts
   then emit (RemoveFileExecutablePermission result_filename)
   else mret ());;
  if isWin32Windows env && shallMakeModule opts then
    let candidate :=
      join path (dirname path result_filename)
        ("lib" +:+ drop_last 4 (basename path result_filename) +:+ ".a") in
    exists_ ← os_path_exists candidate;
    if (exists_ : bool)
    then modify (set_fs (delete candidate));; emit (Unlink candidate)
    else mret ()
  else mret ().

(** Lines 387-402 *)
Definition write_run_script (result_filename : string) : M unit :=
  if isWin32Windows env && shallTreatUninstalledPython opts then
    let dll_directory :=
      getExternalUsePath env (dirname path (getTargetPythonDLLPath env)) in
    let cmd_filename := getResultRunFilename env false in
    let exe_filename := basename path result_filename in
    let cmd_contents :=
      nl +:+ "@echo off" +:+ nl
      +:+ "rem This script was created by Nuitka to execute '" +:+ exe_filename
      +:+ "' with Python DLL being found." +:+ nl
      +:+ "set PATH=" +:+ dll_directory +:+ ";%PATH%" +:+ nl
      +:+ dquote +:+ "%~dp0.\" +:+ exe_filename +:+ dquote +:+ nl in
    modify (set_fs <[cmd_filename := String.list_byte_of_string cmd_contents]>);;
    emit (PutTextFileContents cmd_filename cmd_contents)
  else mret ().

Definition executePostProcessing : M unit :=
  let result_filename := getResultFullpath env false in
  check_result_exists result_filename;;
  attach_windows_resources result_filename;;
  update_library_paths result_filename;;
  fix_module_file result_filename;;
  write_run_script result_filename.

End PostProcessing.

(** ** Sample data: a Windows machine and some icon files *)

Module Sample.

Definition lower (c : ascii) : ascii :=
  let n := N_of_ascii c in
  if (65 <=? n)%N && (n <=? 90)%N then ascii_of_N (n + 32)
  else if (n =? 47)%N then ascii_of_N 92
  else c.

Fixpoint map_string (f : ascii → ascii) (s : string) : string :=
  match s with
  | EmptyString => EmptyString
  | String c s' => String (f c) (map_string f s')
  end.

Definition is_sep (c : ascii) : bool :=
  let n := N_of_ascii c in (n =? 92)%N || (n =? 47)%N.

(** The text after the last separator, and the text before it. *)
Fixpoint split_last (s : string) : option (string * string) :=
  match s with
  | EmptyString => None
  | String c s' =>
      match split_last s' with
      | Some (head, tail) => Some (String c head, tail)
      | None => if is_sep c then Some ("", s') else None
      end
  end.

(** [ntpath] on ASCII text: [join] for a relative second part, [dirname]
    and [basename] for a path with a directory part of more than a
    separator. *)
Definition ntpath : os_path_module :=
  {| normcase := map_string lower;
     join := λ a b,
       match String.get (String.length a - 1) a with
       | Some c => if is_sep c || Ascii.eqb c ":" then a +:+ b
                   else a +:+ String (ascii_of_nat 92) b
       | None => b
       end;
     dirname := λ p, if split_last p is Some (head, _) then head else "";
     basename := λ p, if split_last p is Some (_, tail) then tail else p |}.

Definition ico_header (reserved type count : Z) : bytes :=
  to_le 2 reserved ++ to_le 2 type ++ to_le 2 count.

Definition ico_entry (width height planes bit_count image_size image_offset : Z)
  : bytes :=
  to_le 1 width ++ to_le 1 height ++ to_le 1 0 ++ to_le 1 0 ++ to_le 2 planes
  ++ to_le 2 bit_count ++ to_le 4 image_size ++ to_le 4 image_offset.

Definition image (tag : Z) (size : nat) : bytes := replicate size (byte_of_Z tag).

(** One icon of 3 bytes. *)
Definition one_ico : bytes :=
  ico_header 0 1 1 ++ ico_entry 16 16 1 32 3 22 ++ image 170 3.

(** Two icons, of 3 and 5 bytes. *)
Definition two_ico : bytes :=
  ico_header 0 1 2 ++ ico_entry 16 16 1 32 3 38 ++ ico_entry 32 32 1 32 5 41
  ++ image 161 3 ++ image 162 5.

(** Three icons, of 2, 4 and 1 bytes. *)
Definition three_ico : bytes :=
  ico_header 0 1 3 ++ ico_entry 16 16 1 8 2 54 ++ ico_entry 32 32 1 8 4 56
  ++ ico_entry 48 48 1 8 1 60 ++ image 177 2 ++ image 178 4 ++ image 179 1.

(** As [one_ico], with type 2 (a cursor) in the header. *)
Definition cursor_ico : bytes :=
  ico_header 0 2 1 ++ ico_entry 16 16 1 32 3 22 ++ image 170 3.

Definition files : gmap string bytes :=
  <["one.ico" := one_ico]> (<["two.ico" := two_ico]> (<["three.ico" := three_ico]>
  (<["cursor.ico" := cursor_ico]> (<["logo.png" := image 80 4]>
  (<["splash.png" := image 83 2]> (<["build\__constants.bin" := image 67 3]>
  (<["app.exe" := image 77 2]> (<["mod.pyd" := image 77 2]> ∅)))))))).

Definition start : state := {| fs := files; version_resources := ∅ |}.

Definition icon_options (icons : list string) : Options :=
  {| getIconPaths := icons;
     getWindowsIconExecutablePath := None;
     getWindowsSplashScreen := None;
     shallAskForWindowsAdminRights := false;
     shallAskForWindowsUIAccessRights := false;
     getWindowsVersionInfoStrings := [];
     getWindowsProductVersion := None;
     getWindowsFileVersion := None;
     shallMakeModule := false;
     shallUseStaticLibPython := false;
     shallTreatUninstalledPython := false |}.

Definition windows (o : Options) (io : option imageio_module) : Environment :=
  {| options := o;
     os_path := ntpath;
     isWin32Windows := true;
     getOS := "Windows";
     python_version := 0x390;
     python_version_str := "3.9";
     getPythonABI := "";
     sys_prefix := "C:\Python39";
     sys_executable := "C:\Python39\python.exe";
     getResultFullpath := λ onefile,
       if onefile then "app-onefile.exe"
       else if shallMakeModule o then "mod.pyd" else "app.exe";
     getSourceDirectoryPath := λ _, "build";
     getResultRunFilename := λ _, "app.cmd";
     getConstantBlobFilename := λ d, d +:+ "\__constants.bin";
     getTargetPythonDLLPath := "C:\Python39\python39.dll";
     getExternalUsePath := id;
     imageio := io;
     copyResourcesFromFileToFile := λ _ _ _ _, 0;
     addVersionInfoResource := λ _ _ _, ∅;
     memory_after := λ _ _, x00 |}.

Definition env (icons : list string) : Environment := windows (icon_options icons) None.

(** All resource steps at once, the icons taken from a template. *)
Definition template_options : Options :=
  {| getIconPaths := ["one.ico"];
     getWindowsIconExecutablePath := Some "C:\template.exe";
     getWindowsSplashScreen := Some "splash.png";
     shallAskForWindowsAdminRights := true;
     shallAskForWindowsUIAccessRights := false;
     getWindowsVersionInfoStrings := [("ProductName", "app")];
     getWindowsProductVersion := Some (1, 2, 3, 4);
     getWindowsFileVersion := None;
     shallMakeModule := false;
     shallUseStaticLibPython := false;
     shallTreatUninstalledPython := true |}.

(** An extension module. *)
Definition module_options : Options :=
  {| getIconPaths := ["one.ico"];
     getWindowsIconExecutablePath := None;
     getWindowsSplashScreen := Some "splash.png";
     shallAskForWindowsAdminRights := true;
     shallAskForWindowsUIAccessRights := false;
     getWindowsVersionInfoStrings := [("ProductName", "mod")];
     getWindowsProductVersion := Some (1, 2, 3, 4);
     getWindowsFileVersion := None;
     shallMakeModule := true;
     shallUseStaticLibPython := false;
     shallTreatUninstalledPython := false |}.

(** An [imageio] that reads any file as it is and refuses [.txt]. *)
Definition imageio_stub : imageio_module :=
  {| imread := λ filename files,
       if endswith filename ".txt" then inl (ValueError "Could not find a format")
       else match files !! filename with
            | Some data => inr data
            | None => inl (FileNotFoundError filename)
            end;
     imwrite := λ _, one_ico |}.

(** [posixpath] on ASCII text, for a relative second part of [join]. *)
Definition posixpath : os_path_module :=
  {| normcase := id;
     join := λ a b,
       match String.get (String.length a - 1) a with
       | Some c => if Ascii.eqb c "/" then a +:+ b else a +:+ "/" +:+ b
       | None => b
       end;
     dirname := λ p, if rsplit1 "/" p is Some (head, _) then head else "";
     basename := λ p, if rsplit1 "/" p is Some (_, tail) then tail else p |}.

(** A macOS machine with the result file [app.bin]. *)
Definition darwin (o : Options) : Environment :=
  {| options := o;
     os_path := posixpath;
     isWin32Windows := false;
     getOS := "Darwin";
     python_version := 0x390;
     python_version_str := "3.9";
     getPythonABI := "";
     sys_prefix := "/usr/local";
     sys_executable := "/usr/local/bin/python3";
     getResultFullpath := λ _, "app.bin";
     getSourceDirectoryPath := λ _, "build";
     getResultRunFilename := λ _, "app.sh";
     getConstantBlobFilename := λ d, d +:+ "/__constants.bin";
     getTargetPythonDLLPath := "/usr/local/lib/libpython3.9.dylib";
     getExternalUsePath := id;
     imageio := None;
     copyResourcesFromFileToFile := λ _ _ _ _, 0;
     addVersionInfoResource := λ _ _ _, ∅;
     memory_after := λ _ _, x00 |}.

Definition darwin_start : state :=
  {| fs := <["app.bin" := image 77 2]> ∅; version_resources := ∅ |}.

(** The Windows state with the import library of the module beside it. *)
Definition module_start : state :=
  {| fs := <["libmod.a" := image 76 1]> files; version_resources := ∅ |}.

(** A template with five resources to copy. *)
Definition copying (e : Environment) : Environment :=
  {| options := options e;
     os_path := os_path e;
     isWin32Windows := isWin32Windows e;
     getOS := getOS e;
     python_version := python_version e;
     python_version_str := python_version_str e;
     getPythonABI := getPythonABI e;
     sys_prefix := sys_prefix e;
     sys_executable := sys_executable e;
     getResultFullpath := getResultFullpath e;
     getSourceDirectoryPath := getSourceDirectoryPath e;
     getResultRunFilename := getResultRunFilename e;
     getConstantBlobFilename := getConstantBlobFilename e;
     getTargetPythonDLLPath := getTargetPythonDLLPath e;
     getExternalUsePath := getExternalUsePath e;
     imageio := imageio e;
     copyResourcesFromFileToFile := λ _ _ _ _, 5;
     addVersionInfoResource := addVersionInfoResource e;
     memory_after := memory_after e |}.



End Sample.

(** ** Vocabulary of the properties *)

(** Every event of [m], from any state, satisfies [P]. *)
Definition all_events {A} (P : event → Prop) (m : M A) : Prop :=
  ∀ s, Forall P (events (m s)).

(** The events of reading and converting icon files. *)
Definition icon_reading (e : event) : Prop :=
  match e with
  | Info _ | Open _ | Read _ _ _ | Seek _ _ | ImRead _ | MakePath _ | ImWrite _ => True
  | _ => False
  end.

(** The events of [_addWindowsIconFromIcons] on [target]: reading, and
    writing group icons under name 1 and icons under positive names, all
    with language 0. *)
Definition icon_event (target : string) (e : event) : Prop :=
  match e with
  | AddResource t kind res_name lang_id _ =>
      t = target ∧ lang_id = 0
      ∧ (kind = RT_GROUP_ICON ∧ res_name = 1 ∨ kind = RT_ICON ∧ 1 ≤ res_name)
  | _ => icon_reading e
  end.

Inductive step := ManifestStep | VersionInfoStep | IconStep | RawDataStep | LaterStep.

(** The step an event belongs to.  Log lines and file reads with [open]
    only come from the icon step, [getFileContents] only from the two raw
    data resources. *)
Definition step_of (e : event) : step :=
  match e with
  | GetManifest _ | ManifestAddResource _ _ => ManifestStep
  | AddVersionInfo _ _ _ _ _ _ => VersionInfoStep
  | AddResource _ RT_RCDATA _ _ _ | GetFileContents _ => RawDataStep
  | AddResource _ _ _ _ _ | CopyResources _ _ _ | Info _ | Warning _ | Open _
  | Read _ _ _ | Seek _ _ | ImRead _ | MakePath _ | ImWrite _ => IconStep
  | InstallNameTool _ _ _ | RemoveFileExecutablePermission _ | Unlink _
  | PutTextFileContents _ _ => LaterStep
  end.

Definition rank (st : step) : nat :=
  match st with
  | ManifestStep => 0
  | VersionInfoStep => 1
  | IconStep => 2
  | RawDataStep => 3
  | LaterStep => 4
  end.

(** [a] does not belong to a later step than [b]. *)
Definition step_le (a b : event) : Prop := (rank (step_of a) ≤ rank (step_of b))%nat.

(** The events [t] are in step order and lie in the steps [lo] to [hi]. *)
Definition in_steps (lo hi : nat) (t : list event) : Prop :=
  (lo ≤ hi)%nat
  ∧ Forall (λ e, lo ≤ rank (step_of e) ≤ hi)%nat t
  ∧ StronglySorted step_le t.

Definition runs_in_steps {A} (lo hi : nat) (m : M A) : Prop :=
  ∀ s, in_steps lo hi (events (m s)).

(** An [addResourceToFile] call has language 0, and for raw data one of
    the names given. *)
Definition resource_ok (names : list Z) (e : event) : Prop :=
  match e with
  | AddResource _ kind res_name lang_id _ =>
      lang_id = 0 ∧ (kind = RT_RCDATA → res_name ∈ names)
  | _ => True
  end.

(** The (kind, name, language) triples of the resources written. *)
Definition resource_keys (t : list event) : list (resource_kind * Z * Z) :=
  omap (λ e, match e with
             | AddResource _ kind res_name lang_id _ => Some (kind, res_name, lang_id)
             | _ => None
             end) t.

(** [m] ends in [sysexit] only with a message that satisfies [Q]. *)
Definition exits_only {A} (Q : string → Prop) (m : M A) : Prop :=
  ∀ s msg, result (m s) = SysExit msg → Q msg.

(** The data of the group icon resources written, in order. *)
Definition group_icon_data (t : list event) : list bytes :=
  omap (λ e, match e with
             | AddResource _ RT_GROUP_ICON _ _ data => Some data
             | _ => None
             end) t.

(** The data of a group icon resource: the header, then one entry for each
    icon with the id it was given. *)
Definition group_payload (header : bytes) (entries : list (bytes * Z)) : bytes :=
  header ++ concat ((λ e, group_entry e.1 e.2) <$> entries).

(** Gives the icons of each group their ids, counting on from one group to
    the next. *)
Fixpoint number (image_id : Z) (groups : list (bytes * list bytes))
  : list (bytes * list (bytes * Z)) :=
  match groups with
  | [] => []
  | (header, icons) :: groups' =>
      (header, zip icons (seqZ image_id (Z.of_nat (length icons))))
      :: number (image_id + Z.of_nat (length icons)) groups'
  end.

(** The [id] fields read back from the data of a group icon resource. *)
Fixpoint entry_ids (n : nat) (entries : bytes) : list Z :=
  match n with
  | O => []
  | S n' =>
      getattr IconGroupDirectoryEntry (take 14 entries) "id"
      :: entry_ids n' (drop 14 entries)
  end.

Definition group_ids (data : bytes) : list Z :=
  entry_ids ((length data - 6) `div` 14) (drop 6 data).

(** Whatever [m] returns satisfies [R]. *)
Definition returns_with {A} (R : A → Prop) (m : M A) : Prop :=
  ∀ s a s' t, m s = (Return a, s', t) → R a.

(** The [n] directory entries that start at position [pos] of a file. *)
Definition entries_from (data : bytes) (pos n : nat) : list bytes :=
  (λ k, take 16 (drop (pos + 16 * k) data)) <$> seq 0 n.

(** The directory of an ICO file with [n] entries: it follows the header. *)
Definition directory (data : bytes) (n : nat) : list bytes := entries_from data 6 n.

(** The number of entries the header of a file announces. *)
Definition announced (data : bytes) : nat :=
  Z.to_nat (getattr IconDirectoryHeader (take 6 data) "count").

(** The image a directory entry points to: [image_size] bytes from
    [image_offset] on, as far as the file goes; all the rest for size -1. *)
Definition image_of (data : bytes) (icon : bytes) : bytes :=
  let rest := drop (Z.to_nat (getattr IconDirectoryEntry icon "image_offset")) data in
  let size := getattr IconDirectoryEntry icon "image_size" in
  if size =? -1 then rest else take (Z.to_nat size) rest.

(** An entry whose image can be asked for: [seek] and [read] accept it. *)
Definition readable_image (icon : bytes) : Prop :=
  0 ≤ getattr IconDirectoryEntry icon "image_offset"
  ∧ -1 ≤ getattr IconDirectoryEntry icon "image_size".

(** The icons kept of those parsed, for an index that passes the test. *)
Definition kept_icons (icon_index : option Z) (icons : list bytes) : list bytes :=
  match icon_index with
  | Some i => slice icons i (i + 1)
  | None => icons
  end.

(** The events of fetching the images of some entries. *)
Definition image_events (filename : string) (icons : list bytes) : list event :=
  icons ≫= λ icon,
    [Seek filename (getattr IconDirectoryEntry icon "image_offset");
     Read filename (Z.to_nat (getattr IconDirectoryEntry icon "image_offset"))
          (getattr IconDirectoryEntry icon "image_size")].

(** The events of reading the header and [n] directory entries. *)
Definition directory_events (filename : string) (n : nat) : list event :=
  Open filename :: Read filename 0 6
  :: ((λ k, Read filename (6 + 16 * k) 16) <$> seq 0 n).

(** The names and data of the icon resources written, in order. *)
Definition icon_resources (t : list event) : list (Z * bytes) :=
  omap (λ e, match e with
             | AddResource _ RT_ICON res_name _ data => Some (res_name, data)
             | _ => None
             end) t.

(** [m] leaves the files and [version_resources] as they are. *)
Definition keeps_state {A} (m : M A) : Prop := ∀ s, final (m s) = s.

(** The path part of an icon specification. *)
Definition icon_path_of (icon_spec : string) : string :=
  match rsplit1 "#" icon_spec with
  | Some (icon_path, _) => icon_path
  | None => icon_spec
  end.

(** A file with the position moved on by [n] bytes. *)
Definition advance (f : file) (n : nat) : file :=
  {| file_name := file_name f; file_data := file_data f; file_pos := file_pos f + n |}.


(** The manifests written, in order. *)
Definition manifests (t : list event) : list Manifest :=
  omap (λ e, match e with ManifestAddResource _ m => Some m | _ => None end) t.

(** The import library beside a module that the build leaves behind. *)
Definition import_library (env : Environment) : string :=
  let result_filename := getResultFullpath env false in
  join (os_path env) (dirname (os_path env) result_filename)
    ("lib" +:+ drop_last 4 (basename (os_path env) result_filename) +:+ ".a").

(** An event that belongs to the run before the constants blob is
    attached: not the blob resource, nor one of the steps after it. *)
Definition before_the_blob (e : event) : Prop :=
  step_of e ≠ LaterStep
  ∧ ∀ target lang_id data, e ≠ AddResource target RT_RCDATA 3 lang_id data.










#[global] Instance resource_kind_eq_dec : EqDecision resource_kind.
Proof. solve_decision. Defined.





(** * Properties *)

(** ** Little-endian encoding *)

Lemma Z_of_byte_of_Z (z : Z) : Z_of_byte (byte_of_Z z) = z mod 256.
Proof.
  unfold Z_of_byte, byte_of_Z.
  pose proof (Z.mod_pos_bound z 256 eq_refl) as Hz.
  destruct (Byte.of_N (Z.to_N (z mod 256))) as [b|] eqn:E; simpl.
  - apply Byte.to_of_N in E. rewrite E. lia.
  - apply Byte.of_N_None_iff in E. lia.
Qed.

Lemma Z_of_byte_range (b : byte) : 0 ≤ Z_of_byte b < 256.
Proof. unfold Z_of_byte. pose proof (Byte.to_N_bounded b). lia. Qed.

Lemma length_to_le (n : nat) (z : Z) : length (to_le n z) = n.
Proof. revert z. induction n as [|n IH]; intros z; simpl; [done | by rewrite IH]. Qed.

(** The bytes of [to_le n z] are the base-256 digits of [z], lowest first. *)
Lemma of_le_to_le (n : nat) (z : Z) : of_le (to_le n z) = z mod 256 ^ Z.of_nat n.
Proof.
  revert z. induction n as [|n IH]; intros z.
  - simpl. by rewrite Z.mod_1_r.
  - cbn [to_le of_le]. rewrite IH, Z_of_byte_of_Z.
    rewrite Nat2Z.inj_succ, Z.pow_succ_r by lia.
    rewrite Z.rem_mul_r by lia. reflexivity.
Qed.

(** ** The layout of the three structures *)

Lemma sizeof_IconDirectoryHeader : sizeof IconDirectoryHeader = 6%nat.
Proof. reflexivity. Qed.

Lemma sizeof_IconDirectoryEntry : sizeof IconDirectoryEntry = 16%nat.
Proof. reflexivity. Qed.

Lemma sizeof_IconGroupDirectoryEntry : sizeof IconGroupDirectoryEntry = 14%nat.
Proof. reflexivity. Qed.

(** Without [_pack_ = 2] the group entry would end in two padding bytes. *)
Lemma sizeof_unpacked_group_entry :
  sizeof {| _pack_ := None; _fields_ := _fields_ IconGroupDirectoryEntry |} = 16%nat.
Proof. reflexivity. Qed.

(** C2, as stated, at sample field values: the entry is not 12 bytes long. *)
Lemma group_entry_is_not_12_bytes :
  length (convertStructureToBytes (make_group_entry 16 16 0 0 1 32 1128 1)) ≠ 12%nat.
Proof. vm_compute. discriminate. Qed.

(** C2, amended: for every field assignment the serialized
    [IconGroupDirectoryEntry] is exactly 14 bytes: the fields width, height,
    colors, reserved (one byte each), planes, bit_count (two bytes each),
    image_size (four bytes) and id (two bytes) one after the other, each
    little-endian, with no padding byte between or after them. *)
Theorem group_entry_packed_layout (width height colors reserved planes bit_count
                                   image_size id : Z) :
  let entry :=
    convertStructureToBytes
      (make_group_entry width height colors reserved planes bit_count image_size id) in
  entry = to_le 1 width ++ to_le 1 height ++ to_le 1 colors ++ to_le 1 reserved
          ++ to_le 2 planes ++ to_le 2 bit_count ++ to_le 4 image_size ++ to_le 2 id
  ∧ length entry = 14%nat.
Proof. split; reflexivity. Qed.

(** ** Running computations *)

Lemma run_bind {A B} (m : M A) (f : A → M B) (s : state) :
  (m ≫= f) s =
  match m s with
  | (Return a, s1, t1) => let '(o, s2, t2) := f a s1 in (o, s2, t1 ++ t2)
  | (SysExit msg, s1, t1) => (SysExit msg, s1, t1)
  | (Raise e, s1, t1) => (Raise e, s1, t1)
  end.
Proof.
  unfold mbind, M_bind. destruct (m s) as [[[a|msg|e] s1] t1]; [|done..].
  by destruct (f a s1) as [[o s2] t2].
Qed.

Lemma run_bind_assoc {A B C} (m : M A) (f : A → M B) (g : B → M C) (s : state) :
  ((m ≫= f) ≫= g) s = (m ≫= λ a, f a ≫= g) s.
Proof.
  rewrite (run_bind (m ≫= f)), (run_bind m f), (run_bind m).
  destruct (m s) as [[[a|msg|e] s1] t1]; [|done..].
  rewrite run_bind.
  destruct (f a s1) as [[[b|msg|e] s2] t2]; [|done..].
  destruct (g b s2) as [[o s3] t3]. by rewrite app_assoc.
Qed.

Section all_events.
Context (P : event → Prop).

Lemma all_events_ret {A} (a : A) : all_events P (mret a).
Proof. intros s. constructor. Qed.

Lemma all_events_sysexit {A} msg : all_events P (@sysexit A msg).
Proof. intros s. constructor. Qed.

Lemma all_events_raise {A} e : all_events P (@raise A e).
Proof. intros s. constructor. Qed.

Lemma all_events_get_state : all_events P get_state.
Proof. intros s. constructor. Qed.

Lemma all_events_modify f : all_events P (modify f).
Proof. intros s. constructor. Qed.

Lemma all_events_emit e : P e → all_events P (emit e).
Proof. intros He s. by repeat constructor. Qed.

Lemma all_events_bind {A B} (m : M A) (f : A → M B) :
  all_events P m → (∀ a, all_events P (f a)) → all_events P (m ≫= f).
Proof.
  intros Hm Hf s. rewrite run_bind. specialize (Hm s).
  destruct (m s) as [[[a|msg|e] s1] t1]; [|done..].
  specialize (Hf a s1). destruct (f a s1) as [[o s2] t2].
  unfold events in *; simpl in *. by apply Forall_app.
Qed.
End all_events.

(** Breaks a computation into its calls; leaves the events to be checked. *)
Ltac all_events_step :=
  match goal with
  | |- all_events _ (mret _) => apply all_events_ret
  | |- all_events _ (sysexit _) => apply all_events_sysexit
  | |- all_events _ (raise _) => apply all_events_raise
  | |- all_events _ get_state => apply all_events_get_state
  | |- all_events _ (modify _) => apply all_events_modify
  | |- all_events _ (emit _) => apply all_events_emit
  | |- all_events _ (_ ≫= _) => apply all_events_bind; [|intros]
  | |- all_events _ (let '(_, _) := ?p in _) => destruct p
  | |- all_events _ (match ?x with _ => _ end) => destruct x
  | |- all_events _ (if ?b then _ else _) => destruct b
  end.

Create HintDb post_processing.

Ltac all_events := repeat all_events_step; try done; eauto with post_processing.

Lemma all_events_impl {A} (P Q : event → Prop) (m : M A) :
  (∀ e, P e → Q e) → all_events P m → all_events Q m.
Proof. intros HPQ Hm s. eapply Forall_impl; [apply Hm | done]. Qed.

(** ** What the icon step does *)

Section icon_step.
Context (env : Environment).

Lemma file_read_events f size : all_events icon_reading (file_read f size).
Proof. unfold file_read. all_events. Qed.

Lemma file_seek_events f offset : all_events icon_reading (file_seek f offset).
Proof. unfold file_seek. all_events. Qed.

Hint Resolve file_read_events file_seek_events : post_processing.

Lemma readFromFile_events f c : all_events icon_reading (readFromFile env f c).
Proof. unfold readFromFile. all_events. Qed.

Hint Resolve readFromFile_events : post_processing.

Lemma read_entries_events f n : all_events icon_reading (read_entries env f n).
Proof. revert f. induction n as [|n IH]; intros f; simpl; all_events. Qed.

Lemma read_images_events f icons images :
  all_events icon_reading (read_images f icons images).
Proof.
  revert f images. induction icons as [|icon icons IH]; intros f images; simpl;
    all_events.
Qed.

Lemma split_icon_spec_run icon_spec s :
  ∃ o, split_icon_spec icon_spec s = (o, s, []).
Proof.
  unfold split_icon_spec.
  destruct (mem_char _ _); [|by eexists].
  destruct (rsplit1 _ _) as [[icon_path icon_index]|]; [|by eexists].
  destruct (python_int _); by eexists.
Qed.

Lemma split_icon_spec_events icon_spec : all_events icon_reading (split_icon_spec icon_spec).
Proof.
  intros s. destruct (split_icon_spec_run icon_spec s) as [o ->]. constructor.
Qed.

Lemma convert_icon_events onefile icon_spec icon_path icon_index image_id :
  all_events icon_reading (convert_icon env onefile icon_spec icon_path icon_index image_id).
Proof. unfold convert_icon. all_events. Qed.

Lemma select_icons_events icon_path icon_index icons :
  all_events icon_reading (select_icons icon_path icon_index icons).
Proof. unfold select_icons. all_events. Qed.

Hint Resolve read_entries_events read_images_events select_icons_events
  : post_processing.

Lemma read_icon_file_events icon_spec icon_path icon_index images :
  all_events icon_reading (read_icon_file env icon_spec icon_path icon_index images).
Proof. unfold read_icon_file, open. all_events. Qed.

Lemma icon_reading_event target e : icon_reading e → icon_event target e.
Proof. by destruct e. Qed.

Lemma add_icon_group_events onefile target image_id images icon_spec :
  all_events (icon_event target)
    (add_icon_group env onefile target 1 image_id images icon_spec).
Proof.
  unfold add_icon_group, addResourceToFile. all_events.
  - eapply all_events_impl;
      [apply icon_reading_event | apply split_icon_spec_events].
  - eapply all_events_impl;
      [apply icon_reading_event | apply convert_icon_events].
  - eapply all_events_impl;
      [apply icon_reading_event | apply read_icon_file_events].
  - simpl. auto.
Qed.

Hint Resolve add_icon_group_events : post_processing.

Lemma add_icon_groups_events onefile target image_id images icon_specs :
  all_events (icon_event target)
    (add_icon_groups env onefile target 1 image_id images icon_specs).
Proof.
  revert image_id images.
  induction icon_specs as [|icon_spec icon_specs IH]; intros image_id images; simpl;
    all_events.
Qed.

Lemma add_images_events target count images :
  1 ≤ count → all_events (icon_event target) (add_images target count images).
Proof.
  revert count. induction images as [|image images IH]; intros count Hc; simpl;
    unfold addResourceToFile; all_events.
  - simpl. auto.
  - apply IH. lia.
Qed.

Lemma addWindowsIconFromIcons_events onefile :
  all_events (icon_event (getResultFullpath env onefile))
    (_addWindowsIconFromIcons env onefile).
Proof.
  unfold _addWindowsIconFromIcons. all_events.
  - apply add_icon_groups_events.
  - by apply add_images_events.
Qed.

End icon_step.

(** ** The order of the steps *)

Lemma in_steps_nil lo hi : (lo ≤ hi)%nat → in_steps lo hi [].
Proof. intros. repeat split; [done | constructor | constructor]. Qed.

Lemma in_steps_app lo mid hi t1 t2 :
  in_steps lo mid t1 → in_steps mid hi t2 → in_steps lo hi (t1 ++ t2).
Proof.
  intros (Hlm & H1 & S1) (Hmh & H2 & S2). repeat split; [lia | |].
  - apply Forall_app; split; (eapply Forall_impl; [eassumption|]); simpl; lia.
  - apply StronglySorted_app_2; [|done..].
    intros x1 x2 Hx1 Hx2. rewrite Forall_forall in H1, H2.
    specialize (H1 _ Hx1). specialize (H2 _ Hx2). unfold step_le. lia.
Qed.

Lemma in_steps_weaken lo hi lo' hi' t :
  (lo' ≤ lo)%nat → (hi ≤ hi')%nat → in_steps lo hi t → in_steps lo' hi' t.
Proof.
  intros Hlo Hhi (Hle & H & S). repeat split; [lia | | done].
  eapply Forall_impl; [eassumption|]. simpl. lia.
Qed.

Lemma in_steps_one k e : rank (step_of e) = k → in_steps k k [e].
Proof.
  intros <-. repeat split; [done | by repeat constructor |].
  repeat constructor.
Qed.

Lemma in_steps_same k t : Forall (λ e, rank (step_of e) = k) t → in_steps k k t.
Proof.
  induction 1 as [|e t He Ht IH]; [by apply in_steps_nil|].
  change (e :: t) with ([e] ++ t). eapply in_steps_app; [by apply in_steps_one | done].
Qed.

Lemma runs_in_steps_bind {A B} lo mid hi (m : M A) (f : A → M B) :
  (mid ≤ hi)%nat →
  runs_in_steps lo mid m → (∀ a, runs_in_steps mid hi (f a)) →
  runs_in_steps lo hi (m ≫= f).
Proof.
  intros Hle Hm Hf s. rewrite run_bind. specialize (Hm s).
  destruct (m s) as [[[a|msg|e] s1] t1];
    [| by eapply in_steps_weaken; [| |eassumption]..].
  specialize (Hf a s1). destruct (f a s1) as [[o s2] t2].
  unfold events in *; simpl in *. by eapply in_steps_app.
Qed.

Lemma runs_in_steps_same {A} k (m : M A) :
  all_events (λ e, rank (step_of e) = k) m → runs_in_steps k k m.
Proof. intros Hm s. apply in_steps_same, Hm. Qed.

Lemma runs_in_steps_weaken {A} lo hi lo' hi' (m : M A) :
  (lo' ≤ lo)%nat → (hi ≤ hi')%nat → runs_in_steps lo hi m → runs_in_steps lo' hi' m.
Proof. intros ?? Hm s. by eapply in_steps_weaken. Qed.

Section steps.
Context (env : Environment).

Lemma attach_manifest_events target manifest :
  all_events (λ e, rank (step_of e) = 0%nat) (attach_manifest env target manifest).
Proof. unfold attach_manifest. all_events. Qed.

Lemma attach_version_info_events target :
  all_events (λ e, rank (step_of e) = 1%nat) (attach_version_info env target).
Proof. unfold attach_version_info. all_events. Qed.

Lemma icon_event_step target e : icon_event target e → rank (step_of e) = 2%nat.
Proof.
  destruct e; simpl; try done.
  intros (_ & _ & [[-> _]|[-> _]]); done.
Qed.

Lemma attach_icons_events onefile :
  all_events (λ e, rank (step_of e) = 2%nat)
    (attach_icons env (getResultFullpath env onefile) onefile).
Proof.
  unfold attach_icons. all_events.
  eapply all_events_impl; [apply icon_event_step | apply addWindowsIconFromIcons_events].
Qed.

Lemma getFileContents_events filename :
  all_events (λ e, rank (step_of e) = 3%nat) (getFileContents filename).
Proof. unfold getFileContents. all_events. Qed.

Hint Resolve getFileContents_events : post_processing.

Lemma attach_splash_screen_events target :
  all_events (λ e, rank (step_of e) = 3%nat) (attach_splash_screen env target).
Proof. unfold attach_splash_screen, addResourceToFile. all_events. Qed.

Lemma attach_constants_blob_events target :
  all_events (λ e, rank (step_of e) = 3%nat) (attach_constants_blob env target).
Proof. unfold attach_constants_blob, addResourceToFile. all_events. Qed.

Lemma executePostProcessingResources_steps manifest onefile :
  runs_in_steps 0 3 (executePostProcessingResources env manifest onefile).
Proof.
  unfold executePostProcessingResources.
  eapply (runs_in_steps_bind 0 0 3); [lia | |intros _].
  { apply runs_in_steps_same, attach_manifest_events. }
  eapply (runs_in_steps_bind 0 1 3); [lia | |intros _].
  { eapply runs_in_steps_weaken;
      [| |apply runs_in_steps_same, attach_version_info_events]; lia. }
  eapply (runs_in_steps_bind 1 2 3); [lia | |intros _].
  { eapply runs_in_steps_weaken;
      [| |apply runs_in_steps_same, attach_icons_events]; lia. }
  eapply runs_in_steps_weaken;
    [| |apply runs_in_steps_same, attach_splash_screen_events]; lia.
Qed.

Lemma check_result_exists_events P target :
  all_events P (check_result_exists target).
Proof. unfold check_result_exists, os_path_exists. all_events. Qed.

Lemma attach_windows_resources_steps target :
  runs_in_steps 0 3 (attach_windows_resources env target).
Proof.
  unfold attach_windows_resources.
  destruct (isWin32Windows env); [|intros s; apply in_steps_nil; lia].
  eapply (runs_in_steps_bind 0 3 3); [lia | |intros _].
  - destruct (negb _); [|intros s; apply in_steps_nil; lia].
    eapply (runs_in_steps_bind 0 0 3); [lia | |intros manifest].
    + apply runs_in_steps_same. unfold getWindowsExecutableManifest. all_events.
    + apply executePostProcessingResources_steps.
  - apply runs_in_steps_same, attach_constants_blob_events.
Qed.

Lemma later_steps_events target :
  all_events (λ e, rank (step_of e) = 4%nat)
    (update_library_paths env target;; fix_module_file env target;;
     write_run_script env target).
Proof.
  unfold update_library_paths, fix_module_file, write_run_script, os_path_exists.
  all_events.
Qed.

Lemma executePostProcessing_steps : runs_in_steps 0 4 (executePostProcessing env).
Proof.
  unfold executePostProcessing.
  eapply (runs_in_steps_bind 0 0 4); [lia | |intros _].
  { apply runs_in_steps_same, check_result_exists_events. }
  eapply (runs_in_steps_bind 0 3 4); [lia | |intros _].
  { apply attach_windows_resources_steps. }
  eapply runs_in_steps_weaken; [| |apply runs_in_steps_same, later_steps_events]; lia.
Qed.

End steps.

(** C8: in every configuration, and from every state, the events of
    [executePostProcessing] and of [executePostProcessingResources] come in
    step order: those of the manifest first, then those of the version
    information, then those of the icons, then the raw data resources
    (splash screen, then constants blob); no event of a later step comes
    before an event of an earlier one. *)
Theorem resource_steps_in_order (env : Environment) :
  (∀ s, StronglySorted step_le (events (executePostProcessing env s)))
  ∧ (∀ manifest onefile s,
       StronglySorted step_le
         (events (executePostProcessingResources env manifest onefile s))).
Proof.
  split.
  - intros s. apply (executePostProcessing_steps env s).
  - intros manifest onefile s.
    apply (executePostProcessingResources_steps env manifest onefile s).
Qed.

(** ** Language and names of the resources *)

Lemma icon_event_resource_ok target names e : icon_event target e → resource_ok names e.
Proof.
  destruct e; simpl; try done.
  intros (_ & -> & [[-> _]|[-> _]]); done.
Qed.

Lemma resource_ok_mono names names' e :
  (∀ n, n ∈ names → n ∈ names') → resource_ok names e → resource_ok names' e.
Proof.
  intros Hsub. destruct e; simpl; try done. intros [-> Hname]. split; [done|]. auto.
Qed.

Lemma splash_name_allowed n : n ∈ [27] → n ∈ [27; 3].
Proof. intros ->%list_elem_of_singleton. apply list_elem_of_here. Qed.

Lemma blob_name_allowed n : n ∈ [3] → n ∈ [27; 3].
Proof.
  intros ->%list_elem_of_singleton. apply list_elem_of_further, list_elem_of_here.
Qed.

Section resource_names.
Context (env : Environment).

Lemma attach_splash_screen_ok target :
  all_events (resource_ok [27]) (attach_splash_screen env target).
Proof.
  unfold attach_splash_screen, addResourceToFile, getFileContents. all_events.
  simpl. split; [done|]. intros _. apply list_elem_of_here.
Qed.

Lemma attach_constants_blob_ok target :
  all_events (resource_ok [3]) (attach_constants_blob env target).
Proof.
  unfold attach_constants_blob, addResourceToFile, getFileContents. all_events.
  simpl. split; [done|]. intros _. apply list_elem_of_here.
Qed.

Lemma executePostProcessingResources_ok manifest onefile :
  all_events (resource_ok [27]) (executePostProcessingResources env manifest onefile).
Proof.
  unfold executePostProcessingResources. all_events.
  - unfold attach_manifest. all_events.
  - unfold attach_version_info. all_events.
  - unfold attach_icons. all_events.
    eapply all_events_impl;
      [apply icon_event_resource_ok | apply addWindowsIconFromIcons_events].
  - apply attach_splash_screen_ok.
Qed.

Lemma attach_windows_resources_ok target :
  all_events (resource_ok [27; 3]) (attach_windows_resources env target).
Proof.
  unfold attach_windows_resources, getWindowsExecutableManifest. all_events.
  all: first
    [ eapply all_events_impl;
        [intros e; apply resource_ok_mono, splash_name_allowed
        |apply executePostProcessingResources_ok]
    | eapply all_events_impl;
        [intros e; apply resource_ok_mono, blob_name_allowed
        |apply attach_constants_blob_ok] ].
Qed.

Lemma executePostProcessing_ok : all_events (resource_ok [27; 3]) (executePostProcessing env).
Proof.
  unfold executePostProcessing. all_events.
  - apply check_result_exists_events.
  - apply attach_windows_resources_ok.
  - unfold update_library_paths. all_events.
  - unfold fix_module_file, os_path_exists. all_events.
  - unfold write_run_script. all_events.
Qed.

End resource_names.

Section written_resources.
Context (env : Environment).








End written_resources.



(** ** The template executable, and library modules *)

Section runs.
Context (env : Environment).

Lemma attach_manifest_run target manifest s :
  ∃ t, attach_manifest env target manifest s = (Return (), s, t).
Proof.
  unfold attach_manifest.
  destruct (_ || _); simpl.
  - by eexists.
  - destruct manifest; by eexists.
Qed.

Lemma attach_version_info_run target s :
  ∃ s' t, attach_version_info env target s = (Return (), s', t) ∧ fs s' = fs s.
Proof.
  unfold attach_version_info.
  destruct (_ || _); by do 2 eexists.
Qed.

Lemma attach_splash_screen_run target s :
  attach_splash_screen env target s =
  match getWindowsSplashScreen (options env) with
  | Some filename =>
      match fs s !! filename with
      | Some data =>
          (Return (), s, [GetFileContents filename;
                          AddResource target RT_RCDATA 27 0 data])
      | None => (Raise (FileNotFoundError filename), s, [])
      end
  | None => (Return (), s, [])
  end.
Proof.
  unfold attach_splash_screen.
  destruct (getWindowsSplashScreen _) as [filename|]; [|done].
  rewrite run_bind. unfold getFileContents. rewrite run_bind. simpl.
  by destruct (fs s !! filename).
Qed.

Lemma attach_constants_blob_run target s data :
  fs s !! getConstantBlobFilename env (getSourceDirectoryPath env false) = Some data →
  attach_constants_blob env target s =
  (Return (), s,
   [GetFileContents (getConstantBlobFilename env (getSourceDirectoryPath env false));
    AddResource target RT_RCDATA 3 0 data]).
Proof.
  intros Hdata. unfold attach_constants_blob.
  rewrite run_bind. unfold getFileContents. rewrite run_bind. simpl.
  by rewrite Hdata.
Qed.

(** The steps after the resources always return. *)
Lemma later_steps_run target s :
  ∃ s' t,
    (update_library_paths env target;; fix_module_file env target;;
     write_run_script env target) s = (Return (), s', t).
Proof.
  unfold update_library_paths, fix_module_file, write_run_script, os_path_exists.
  destruct (_ && _ && _), (negb (isWin32Windows env) && _),
    (isWin32Windows env && shallMakeModule _),
    (isWin32Windows env && shallTreatUninstalledPython _); simpl;
    repeat (rewrite run_bind; simpl);
    try destruct (bool_decide _); simpl; by do 2 eexists.
Qed.

End runs.

(** C7: with a template executable configured the icon step is, from
    any state and for any count, the copy of the icons and group icons of
    the template followed by one warning, and it returns: no icon file is
    opened and no resource is built.  For a count of zero the warning says
    that the template had nothing to copy.  The splash screen step follows
    the warning.  In [executePostProcessingResources] the copy, the
    warning and the splash screen step follow whenever the manifest and
    version information steps have returned, and nothing else comes before
    them. *)
Theorem template_without_icons_only_warns (env : Environment)
    (manifest : option Manifest) (onefile : bool) (s : state) (template_exe : string) :
  getWindowsIconExecutablePath (options env) = Some template_exe →
  let target := getResultFullpath env onefile in
  let copy := CopyResources template_exe target [RT_ICON; RT_GROUP_ICON] in
  let res_copied files :=
    copyResourcesFromFileToFile env template_exe target [RT_ICON; RT_GROUP_ICON] files in
  let warning files :=
    Warning (if res_copied files =? 0
             then "The specified icon template executable " +:+ fmt_r template_exe
                  +:+ " didn't contain anything to copy."
             else "Copied " +:+ fmt_d (res_copied files) +:+ " icon resources from "
                  +:+ fmt_r template_exe +:+ ".") in
  let earlier := attach_manifest env target manifest;; attach_version_info env target in
  (∀ s1, attach_icons env target onefile s1 = (Return (), s1, [copy; warning (fs s1)]))
  ∧ (∀ s1, (attach_icons env target onefile;; attach_splash_screen env target) s1
           = let '(o, s2, after) := attach_splash_screen env target s1 in
             (o, s2, [copy; warning (fs s1)] ++ after))
  ∧ executePostProcessingResources env manifest onefile s
    = match earlier s with
      | (Return _, s1, before) =>
          let '(o, s2, after) := attach_splash_screen env target s1 in
          (o, s2, before ++ [copy; warning (fs s1)] ++ after)
      | (SysExit msg, s1, before) => (SysExit msg, s1, before)
      | (Raise e, s1, before) => (Raise e, s1, before)
      end
  ∧ Forall (λ e, rank (step_of e) < 2)%nat (events (earlier s)).
Proof.
  intros Htemplate target copy res_copied warning earlier.
  assert (∀ s1, attach_icons env target onefile s1
                = (Return (), s1, [copy; warning (fs s1)])) as Hicons.
  { intros s1. unfold attach_icons. rewrite Htemplate.
    rewrite run_bind. simpl. rewrite run_bind. simpl.
    subst warning res_copied copy. cbv beta.
    by destruct (copyResourcesFromFileToFile _ _ _ _ _ =? 0). }
  assert (∀ s1, (attach_icons env target onefile;; attach_splash_screen env target) s1
                = let '(o, s2, after) := attach_splash_screen env target s1 in
                  (o, s2, [copy; warning (fs s1)] ++ after)) as Hnext.
  { intros s1. rewrite run_bind, Hicons.
    by destruct (attach_splash_screen env target s1) as [[o s2] after]. }
  split; [exact Hicons|]. split; [exact Hnext|]. split.
  - unfold executePostProcessingResources. fold target.
    change (attach_manifest env target manifest
            ≫= λ _, attach_version_info env target
                    ≫= λ _, attach_icons env target onefile
                            ≫= λ _, attach_splash_screen env target)
      with (attach_manifest env target manifest
            ≫= λ a, (λ _, attach_version_info env target) a
                    ≫= λ _, attach_icons env target onefile
                            ≫= λ _, attach_splash_screen env target).
    rewrite <- run_bind_assoc. fold earlier. rewrite run_bind.
    destruct (earlier s) as [[[[]|msg|e] s1] before]; [|done..].
    rewrite Hnext. by destruct (attach_splash_screen env target s1) as [[o s2] after].
  - subst earlier. rewrite run_bind.
    pose proof (attach_manifest_events env target manifest s) as Hm.
    destruct (attach_manifest env target manifest s) as [[[[]|msg|e] s0] t0];
      [|(eapply Forall_impl; [exact Hm|]; simpl; lia)..].
    pose proof (attach_version_info_events env target s0) as Hv.
    destruct (attach_version_info env target s0) as [[o s1] t1].
    unfold events in *. cbn [fst snd] in *.
    apply Forall_app; split; (eapply Forall_impl; [eassumption|]); simpl; lia.
Qed.

(** The sample run with a template that has no icons. *)
Lemma template_without_icons_only_warns_sample :
  let env := Sample.windows Sample.template_options None in
  let copy := CopyResources "C:\template.exe" "app.exe" [RT_ICON; RT_GROUP_ICON] in
  let res_copied files :=
    copyResourcesFromFileToFile env "C:\template.exe" "app.exe" [RT_ICON; RT_GROUP_ICON]
      files in
  let warning files :=
    Warning (if res_copied files =? 0
             then "The specified icon template executable " +:+ fmt_r "C:\template.exe"
                  +:+ " didn't contain anything to copy."
             else "Copied " +:+ fmt_d (res_copied files) +:+ " icon resources from "
                  +:+ fmt_r "C:\template.exe" +:+ ".") in
  let earlier := attach_manifest env "app.exe" None;; attach_version_info env "app.exe" in
  (∀ s1, attach_icons env "app.exe" false s1 = (Return (), s1, [copy; warning (fs s1)]))
  ∧ (∀ s1, (attach_icons env "app.exe" false;; attach_splash_screen env "app.exe") s1
           = let '(o, s2, after) := attach_splash_screen env "app.exe" s1 in
             (o, s2, [copy; warning (fs s1)] ++ after))
  ∧ executePostProcessingResources env None false Sample.start
    = match earlier Sample.start with
      | (Return _, s1, before) =>
          let '(o, s2, after) := attach_splash_screen env "app.exe" s1 in
          (o, s2, before ++ [copy; warning (fs s1)] ++ after)
      | (SysExit msg, s1, before) => (SysExit msg, s1, before)
      | (Raise e, s1, before) => (Raise e, s1, before)
      end
  ∧ Forall (λ e, rank (step_of e) < 2)%nat (events (earlier Sample.start)).
Proof.
  apply (template_without_icons_only_warns
           (Sample.windows Sample.template_options None) None false Sample.start
           "C:\template.exe"); reflexivity.
Defined.

(** C9: on Windows, for a library module, no manifest, version
    information, icon or splash screen step runs; the constants blob is
    still written into the module file as raw data resource 3, and the run
    returns. *)
Theorem module_on_windows_only_gets_the_blob (env : Environment) (s : state)
    (data : bytes) :
  isWin32Windows env = true →
  shallMakeModule (options env) = true →
  is_Some (fs s !! getResultFullpath env false) →
  fs s !! getConstantBlobFilename env (getSourceDirectoryPath env false) = Some data →
  let r := executePostProcessing env s in
  ∃ later,
    events r =
      [GetFileContents (getConstantBlobFilename env (getSourceDirectoryPath env false));
       AddResource (getResultFullpath env false) RT_RCDATA 3 0 data] ++ later
    ∧ Forall (λ e, step_of e = LaterStep) later
    ∧ result r = Return ().
Proof.
  intros Hwin Hmod Hexists Hdata r. subst r.
  set (target := getResultFullpath env false) in *.
  pose proof (later_steps_events env target) as Hlater.
  unfold executePostProcessing. fold target.
  assert (check_result_exists target s = (Return (), s, [])) as E0.
  { unfold check_result_exists, os_path_exists. rewrite !run_bind. simpl.
    by rewrite bool_decide_eq_true_2. }
  assert (attach_windows_resources env target s =
          (Return (), s,
           [GetFileContents (getConstantBlobFilename env (getSourceDirectoryPath env false));
            AddResource target RT_RCDATA 3 0 data])) as E1.
  { unfold attach_windows_resources. rewrite Hwin, Hmod. simpl.
    rewrite run_bind. simpl. by rewrite (attach_constants_blob_run env target s data). }
  rewrite run_bind, E0. rewrite run_bind, E1.
  specialize (Hlater s).
  destruct (later_steps_run env target s) as (s' & t & E2).
  rewrite E2 in Hlater. rewrite E2.
  exists t. unfold events, result in *; simpl in *. repeat split; try done.
  eapply Forall_impl; [eassumption|]. intros e. simpl. by destruct (step_of e).
Qed.

(** The sample module build. *)
Lemma module_on_windows_only_gets_the_blob_sample :
  let env := Sample.windows Sample.module_options None in
  let r := executePostProcessing env Sample.start in
  ∃ later,
    events r =
      [GetFileContents "build\__constants.bin";
       AddResource "mod.pyd" RT_RCDATA 3 0 (Sample.image 67 3)] ++ later
    ∧ Forall (λ e, step_of e = LaterStep) later
    ∧ result r = Return ().
Proof.
  apply (module_on_windows_only_gets_the_blob
           (Sample.windows Sample.module_options None) Sample.start (Sample.image 67 3));
    [reflexivity | reflexivity | by eexists | reflexivity].
Defined.

(** ** Selecting one icon *)

Lemma slice_one {A} (l : list A) (i : Z) (x : A) :
  0 ≤ i → l !! Z.to_nat i = Some x → slice l i (i + 1) = [x].
Proof.
  intros Hi Hx. pose proof (lookup_lt_Some _ _ _ Hx) as Hlt.
  unfold slice, slice_bound.
  rewrite (proj2 (Z.ltb_ge i 0)) by lia.
  rewrite (proj2 (Z.ltb_ge (i + 1) 0)) by lia.
  replace (Z.min i _) with i by lia.
  replace (Z.min (i + 1) _) with (i + 1) by lia.
  replace (Z.to_nat (i + 1 - i)) with 1%nat by lia.
  rewrite (drop_S _ _ _ Hx). reflexivity.
Qed.

Lemma slice_at_length {A} (l : list A) :
  slice l (Z.of_nat (length l)) (Z.of_nat (length l) + 1) = [].
Proof.
  unfold slice, slice_bound.
  rewrite (proj2 (Z.ltb_ge (Z.of_nat (length l)) 0)) by lia.
  rewrite (proj2 (Z.ltb_ge (Z.of_nat (length l) + 1) 0)) by lia.
  replace (Z.to_nat (_ - _)) with 0%nat by lia. reflexivity.
Qed.

(** An index below the number of icons selects that icon and nothing else. *)
Lemma select_icons_in_range icon_path (i : Z) (icons : list bytes) (icon : bytes) s :
  0 ≤ i → icons !! Z.to_nat i = Some icon →
  select_icons icon_path (Some i) icons s = (Return [icon], s, []).
Proof.
  intros Hi Hx. pose proof (lookup_lt_Some _ _ _ Hx) as Hlt.
  unfold select_icons. rewrite run_bind.
  destruct (i >? Z.of_nat (length icons)) eqn:E; [lia|]. simpl.
  by rewrite (slice_one icons i icon).
Qed.

(** An index above the number of icons ends the run, before any image is
    looked at. *)
Lemma select_icons_beyond icon_path (i : Z) (icons : list bytes) s :
  Z.of_nat (length icons) < i →
  select_icons icon_path (Some i) icons s =
  (SysExit ("Error, referenced icon index " +:+ fmt_d i +:+ " in file '" +:+ icon_path
            +:+ "' with only " +:+ fmt_d (Z.of_nat (length icons)) +:+ " icons."),
   s, []).
Proof.
  intros Hi. unfold select_icons. rewrite run_bind.
  destruct (i >? Z.of_nat (length icons)) eqn:E; [done|lia].
Qed.

(** C1, where the code departs from it: the index equal to the number of
    icons passes the test [icon_index > len(icons)]; no icon is selected and
    the run goes on.  For the sample file with one icon and the
    specification [one.ico#1] a group icon resource that holds only the
    header is written, and no image. *)
Theorem icon_index_equal_to_count_is_accepted :
  (∀ icon_path (icons : list bytes) s,
     select_icons icon_path (Some (Z.of_nat (length icons))) icons s = (Return [], s, []))
  ∧ (let r := _addWindowsIconFromIcons (Sample.env ["one.ico#1"]) false Sample.start in
     result r = Return ()
     ∧ events r =
         [Open "one.ico"; Read "one.ico" 0 6; Read "one.ico" 6 16;
          Info "Adding 0 icon(s) from icon file 'one.ico#1'.";
          AddResource "app.exe" RT_GROUP_ICON 1 0 (Sample.ico_header 0 1 1)]).
Proof.
  split.
  - intros icon_path icons s. unfold select_icons. rewrite run_bind.
    destruct (_ >? _) eqn:E; [lia|]. simpl. by rewrite slice_at_length.
  - by vm_compute.
Qed.

(** ** Resource names within one run *)

(** C4, where the code departs from it: [icon_group] stays 1, so with two
    icon files both group icons are written as (RT_GROUP_ICON, 1, 0) and the
    second replaces the first, while the images get the names 1 to 5. *)
Theorem two_icon_files_share_one_group_name :
  let t := events (_addWindowsIconFromIcons (Sample.env ["two.ico"; "three.ico"])
                     false Sample.start) in
  resource_keys t =
    [(RT_GROUP_ICON, 1, 0); (RT_GROUP_ICON, 1, 0);
     (RT_ICON, 1, 0); (RT_ICON, 2, 0); (RT_ICON, 3, 0); (RT_ICON, 4, 0); (RT_ICON, 5, 0)]
  ∧ ¬ NoDup (resource_keys t).
Proof.
  assert (resource_keys
            (events (_addWindowsIconFromIcons (Sample.env ["two.ico"; "three.ico"])
                       false Sample.start)) =
          [(RT_GROUP_ICON, 1, 0); (RT_GROUP_ICON, 1, 0);
           (RT_ICON, 1, 0); (RT_ICON, 2, 0); (RT_ICON, 3, 0); (RT_ICON, 4, 0);
           (RT_ICON, 5, 0)]) as E by (by vm_compute).
  split; [exact E|]. rewrite E. intros Hnodup.
  apply NoDup_cons in Hnodup as [Hnotin _]. apply Hnotin. apply list_elem_of_here.
Qed.

(** ** When the icon reader gives up *)

Section exits_only.
Context (Q : string → Prop).

Lemma exits_only_ret {A} (a : A) : exits_only Q (mret a).
Proof. by intros s msg. Qed.

Lemma exits_only_raise {A} e : exits_only Q (@raise A e).
Proof. by intros s msg. Qed.

Lemma exits_only_emit e : exits_only Q (emit e).
Proof. by intros s msg. Qed.

Lemma exits_only_get_state : exits_only Q get_state.
Proof. by intros s msg. Qed.

Lemma exits_only_modify f : exits_only Q (modify f).
Proof. by intros s msg. Qed.

Lemma exits_only_sysexit {A} msg : Q msg → exits_only Q (@sysexit A msg).
Proof. intros HQ s msg' [= <-]. done. Qed.

Lemma exits_only_bind {A B} (m : M A) (f : A → M B) :
  exits_only Q m → (∀ a, exits_only Q (f a)) → exits_only Q (m ≫= f).
Proof.
  intros Hm Hf s msg. rewrite run_bind. specialize (Hm s).
  destruct (m s) as [[[a|msg'|e] s1] t1]; [| |done].
  - specialize (Hf a s1 msg). by destruct (f a s1) as [[o s2] t2].
  - intros [= <-]. by apply Hm.
Qed.
End exits_only.

Ltac exits_only_step :=
  match goal with
  | |- exits_only _ (mret _) => apply exits_only_ret
  | |- exits_only _ (raise _) => apply exits_only_raise
  | |- exits_only _ get_state => apply exits_only_get_state
  | |- exits_only _ (modify _) => apply exits_only_modify
  | |- exits_only _ (emit _) => apply exits_only_emit
  | |- exits_only _ (_ ≫= _) => apply exits_only_bind; [|intros]
  | |- exits_only _ (let '(_, _) := ?p in _) => destruct p
  | |- exits_only _ (match ?x with _ => _ end) => destruct x eqn:?
  | |- exits_only _ (if ?b then _ else _) => destruct b eqn:?
  end.

Ltac exits_only := repeat exits_only_step; try done; eauto with post_processing.

Section reader_exits.
Context (env : Environment).

Lemma file_read_never_exits f size : exits_only (λ _, False) (file_read f size).
Proof. unfold file_read. exits_only. Qed.

Lemma file_seek_never_exits f offset : exits_only (λ _, False) (file_seek f offset).
Proof. unfold file_seek. exits_only. Qed.

Hint Resolve file_read_never_exits file_seek_never_exits : post_processing.


(** [readFromFile] returns a structure of full size whatever the file
    still holds: a short read goes unnoticed. *)
Lemma readFromFile_run f c s :
  ∃ buf f',
    readFromFile env f c s =
      (Return (buf, f'), s, [Read (file_name f) (file_pos f) (Z.of_nat (sizeof c))])
    ∧ length buf = sizeof c.
Proof.
  unfold readFromFile, file_read. rewrite run_bind.
  rewrite (proj2 (Z.ltb_ge (Z.of_nat (sizeof c)) (-1))) by lia.
  rewrite (proj2 (Z.eqb_neq (Z.of_nat (sizeof c)) (-1))) by lia.
  rewrite run_bind. simpl. do 2 eexists. split; [reflexivity|].
  rewrite length_app, length_fmap, length_seq. unfold new.
  rewrite length_replicate, length_take, Nat2Z.id. lia.
Qed.

End reader_exits.


Section reader_checks.
Context (env : Environment).













End reader_checks.



(** ** Icon files that are not ICO files *)

(** C6: for an icon specification whose path does not end in [.ico]:
    with an index the run ends in [sysexit] after the log line alone, before
    the icon file or [imageio] is touched; without index and without
    [imageio] it ends with the message that names [imageio]; without index,
    when [imread] raises [ValueError], it ends with the message of an
    unsupported file format. *)
Theorem non_ico_icon_failures (env : Environment) (onefile : bool)
    (result_filename : string) (icon_group image_id : Z) (images : list bytes)
    (icon_spec icon_path : string) (icon_index : option Z) (s : state) :
  split_icon_spec icon_spec s = (Return (icon_path, icon_index), s, []) →
  endswith (normcase (os_path env) icon_path) ".ico" = false →
  let r := add_icon_group env onefile result_filename icon_group image_id images
             icon_spec s in
  let info := Info "Not in Windows icon format, converting to it." in
  match icon_index, imageio env with
  | Some _, _ =>
      result r = SysExit ("Cannot specify indexes with non-ico format files in '"
                          +:+ icon_spec +:+ "'.")
      ∧ events r = [info] ∧ final r = s
  | None, None =>
      result r = SysExit ("Need to install 'imageio' to automatically convert non-ico icon file in '"
                          +:+ icon_spec +:+ "'.")
      ∧ events r = [info] ∧ final r = s
  | None, Some io =>
      ∀ why, imread io (normcase (os_path env) icon_path) (fs s) = inl (ValueError why) →
      result r = SysExit ("Unsupported file format for imageio in '"
                          +:+ icon_spec +:+ "', use e.g. PNG files.")
      ∧ events r = [info; ImRead (normcase (os_path env) icon_path)] ∧ final r = s
  end.
Proof.
  intros Hsplit Hends r info. subst r.
  unfold add_icon_group. rewrite run_bind, Hsplit.
  rewrite run_bind. unfold convert_icon. rewrite Hends. cbn [negb].
  destruct icon_index as [i|].
  - rewrite !run_bind. by simpl.
  - destruct (imageio env) as [io|].
    + intros why Hwhy. repeat (rewrite run_bind; simpl).
      by rewrite Hwhy.
    + rewrite !run_bind. by simpl.
Qed.

(** The sample PNG file: with an index, without [imageio], and a text file
    that [imageio] cannot decode. *)
Lemma non_ico_icon_failures_sample :
  (let r := add_icon_group (Sample.env []) false "app.exe" 1 1 [] "logo.png#0"
              Sample.start in
   result r = SysExit "Cannot specify indexes with non-ico format files in 'logo.png#0'."
   ∧ events r = [Info "Not in Windows icon format, converting to it."]
   ∧ final r = Sample.start)
  ∧ (let r := add_icon_group (Sample.env []) false "app.exe" 1 1 [] "logo.png"
                Sample.start in
     result r = SysExit "Need to install 'imageio' to automatically convert non-ico icon file in 'logo.png'."
     ∧ events r = [Info "Not in Windows icon format, converting to it."]
     ∧ final r = Sample.start)
  ∧ (let r := add_icon_group
                (Sample.windows (Sample.icon_options []) (Some Sample.imageio_stub))
                false "app.exe" 1 1 [] "notes.txt" Sample.start in
     result r = SysExit "Unsupported file format for imageio in 'notes.txt', use e.g. PNG files."
     ∧ events r = [Info "Not in Windows icon format, converting to it.";
                   ImRead "notes.txt"]
     ∧ final r = Sample.start).
Proof.
  split; [|split].
  - apply (non_ico_icon_failures (Sample.env []) false "app.exe" 1 1 [] "logo.png#0"
             "logo.png" (Some 0) Sample.start); reflexivity.
  - apply (non_ico_icon_failures (Sample.env []) false "app.exe" 1 1 [] "logo.png"
             "logo.png" None Sample.start); reflexivity.
  - apply (non_ico_icon_failures
             (Sample.windows (Sample.icon_options []) (Some Sample.imageio_stub))
             false "app.exe" 1 1 [] "notes.txt" "notes.txt" None Sample.start
             eq_refl eq_refl "Could not find a format").
    reflexivity.
Defined.

(** ** The image ids of the group icon entries *)

Lemma returns_with_any {A} (m : M A) : returns_with (λ _, True) m.
Proof. by intros s a s' t _. Qed.

Lemma returns_with_ret {A} (R : A → Prop) (a : A) : R a → returns_with R (mret a).
Proof. intros Ha s a' s' t [= <- _ _]. done. Qed.

Lemma returns_with_bind {A B} (Ra : A → Prop) (R : B → Prop) (m : M A) (f : A → M B) :
  returns_with Ra m → (∀ a, Ra a → returns_with R (f a)) → returns_with R (m ≫= f).
Proof.
  intros Hm Hf s b s' t. rewrite run_bind.
  destruct (m s) as [[[a|msg|e] s1] t1] eqn:Em; [|done..].
  destruct (f a s1) as [[o s2] t2] eqn:Ef. intros [= -> -> <-].
  eapply Hf; [|exact Ef]. eapply Hm, Em.
Qed.

Lemma group_parts_spec (icons : list bytes) (parts : list bytes) (image_id : Z) :
  group_parts icons parts image_id =
  (parts ++ ((λ e, group_entry e.1 e.2)
             <$> zip icons (seqZ image_id (Z.of_nat (length icons)))),
   image_id + Z.of_nat (length icons)).
Proof.
  revert parts image_id. induction icons as [|icon icons IH]; intros parts image_id.
  - simpl. by rewrite app_nil_r, Z.add_0_r.
  - cbn [group_parts length]. rewrite IH. rewrite (seqZ_cons image_id) by lia.
    unfold convertStructureToBytes. cbn [zip zip_with fmap list_fmap].
    rewrite <- app_assoc. simpl.
    replace (Z.pred (Z.of_nat (S (length icons)))) with (Z.of_nat (length icons)) by lia.
    replace (Z.succ image_id) with (image_id + 1) by lia.
    f_equal. lia.
Qed.

Lemma group_icon_data_reading (t : list event) :
  Forall icon_reading t → group_icon_data t = [].
Proof.
  induction 1 as [|e t He Ht IH]; [done|].
  unfold group_icon_data in *. destruct e; simpl in *; done.
Qed.

Lemma number_ids (image_id : Z) (groups : list (bytes * list bytes)) :
  concat ((λ g, g.2.*2) <$> number image_id groups)
  = seqZ image_id (Z.of_nat (length (concat (snd <$> groups)))).
Proof.
  revert image_id. induction groups as [|[header icons] groups IH]; intros image_id.
  - done.
  - cbn [number fmap list_fmap concat snd]. rewrite IH.
    rewrite snd_zip by (rewrite length_seqZ; lia).
    rewrite length_app, Nat2Z.inj_add, seqZ_app by lia. done.
Qed.

Lemma number_length (image_id : Z) (groups : list (bytes * list bytes)) :
  length (concat (snd <$> number image_id groups)) = length (concat (snd <$> groups)).
Proof.
  revert image_id. induction groups as [|[header icons] groups IH]; intros image_id.
  - done.
  - cbn [number fmap list_fmap concat snd]. rewrite !length_app, IH.
    rewrite length_zip, length_seqZ. lia.
Qed.

Lemma number_headers (image_id : Z) (groups : list (bytes * list bytes)) :
  Forall (λ g, length g.1 = 6%nat) groups →
  Forall (λ g, length g.1 = 6%nat) (number image_id groups).
Proof.
  intros H. revert image_id. induction H as [|[header icons] groups Hg _ IH];
    intros image_id; simpl; constructor; auto.
Qed.

Section image_ids.
Context (env : Environment).

Lemma readFromFile_returns f c :
  returns_with (λ a, length a.1 = sizeof c) (readFromFile env f c).
Proof.
  intros s a s' t. destruct (readFromFile_run env f c s) as (buf & f' & -> & Hlen).
  by intros [= <- _ _].
Qed.

Lemma read_icon_file_header icon_spec icon_path icon_index images :
  returns_with (λ a, length a.1.1 = 6%nat)
    (read_icon_file env icon_spec icon_path icon_index images).
Proof.
  unfold read_icon_file.
  apply (returns_with_bind (λ _, True)); [apply returns_with_any|]. intros f _.
  apply (returns_with_bind (λ a, length a.1 = sizeof IconDirectoryHeader));
    [apply readFromFile_returns|]. intros [header f1] Hlen.
  apply (returns_with_bind (λ _, True)); [apply returns_with_any|]. intros [icons f2] _.
  apply (returns_with_bind (λ _, True)); [apply returns_with_any|]. intros icons' _.
  apply (returns_with_bind (λ _, True)); [apply returns_with_any|]. intros _ _.
  apply (returns_with_bind (λ _, True)); [apply returns_with_any|]. intros [images' f3] _.
  by apply returns_with_ret.
Qed.

(** One icon file: when the body of the loop returns, it has written one
    group icon, whose entries carry the ids from [image_id] on, and the
    counter has advanced by the number of entries; otherwise it has written
    none. *)
Lemma add_icon_group_ids onefile target image_id images icon_spec s :
  let r := add_icon_group env onefile target 1 image_id images icon_spec s in
  match result r with
  | Return (image_id', _) =>
      ∃ header icons,
        length header = 6%nat
        ∧ group_icon_data (events r)
          = [group_payload header (zip icons (seqZ image_id (Z.of_nat (length icons))))]
        ∧ image_id' = image_id + Z.of_nat (length icons)
  | _ => group_icon_data (events r) = []
  end.
Proof.
  intros r. subst r. unfold add_icon_group. rewrite run_bind.
  destruct (split_icon_spec_run icon_spec s) as [o1 ->].
  destruct o1 as [[icon_path icon_index]|msg|e]; [|done..].
  rewrite run_bind.
  pose proof (convert_icon_events env onefile icon_spec
                (normcase (os_path env) icon_path) icon_index image_id s) as H2.
  destruct (convert_icon _ _ _ _ _ _ s) as [[o2 s2] t2].
  unfold events in H2; simpl in H2.
  destruct o2 as [icon_path'|msg|e];
    [|unfold result, events; simpl; by apply group_icon_data_reading..].
  rewrite run_bind.
  pose proof (read_icon_file_events env icon_spec icon_path' icon_index images s2) as H3.
  pose proof (read_icon_file_header icon_spec icon_path' icon_index images s2) as Hh.
  destruct (read_icon_file _ _ _ _ _ s2) as [[o3 s3] t3].
  unfold events in H3; simpl in H3.
  destruct o3 as [[[header icons] images']|msg|e];
    [|unfold result, events; simpl; apply group_icon_data_reading;
      by apply Forall_app..].
  specialize (Hh _ _ _ eq_refl). simpl in Hh.
  rewrite group_parts_spec. rewrite run_bind. unfold result, events. simpl.
  exists header, icons. split; [done|]. split; [|done].
  unfold group_icon_data. rewrite !omap_app. fold (group_icon_data t2).
  fold (group_icon_data t3).
  rewrite (group_icon_data_reading t2), (group_icon_data_reading t3) by done.
  reflexivity.
Qed.

Lemma add_icon_groups_ids onefile target image_id images icon_specs s :
  ∃ groups : list (bytes * list bytes),
    group_icon_data
      (events (add_icon_groups env onefile target 1 image_id images icon_specs s))
    = (λ g, group_payload g.1 g.2) <$> number image_id groups
    ∧ Forall (λ g, length g.1 = 6%nat) groups.
Proof.
  revert image_id images s.
  induction icon_specs as [|icon_spec icon_specs IH]; intros image_id images s.
  - by exists [].
  - cbn [add_icon_groups]. rewrite run_bind.
    pose proof (add_icon_group_ids onefile target image_id images icon_spec s) as H1.
    simpl in H1.
    destruct (add_icon_group _ _ _ _ _ _ _ s) as [[o1 s1] t1].
    unfold result, events in H1; simpl in H1.
    destruct o1 as [[image_id' images']|msg|e];
      [|exists []; unfold events; simpl; by rewrite H1..].
    destruct H1 as (header & icons & Hlen & Hdata & ->).
    destruct (IH (image_id + Z.of_nat (length icons)) images' s1)
      as (groups & Hgroups & Hheaders).
    destruct (add_icon_groups _ _ _ _ _ _ _ s1) as [[o2 s2] t2].
    unfold events in *; simpl in *.
    exists ((header, icons) :: groups). split; [|by constructor].
    unfold group_icon_data in *. rewrite omap_app, Hdata, Hgroups. reflexivity.
Qed.

Lemma add_images_group_icon_data target count images s :
  group_icon_data (events (add_images target count images s)) = [].
Proof.
  revert count s. induction images as [|image images IH]; intros count s; [done|].
  cbn [add_images]. rewrite run_bind. unfold addResourceToFile, emit at 1.
  specialize (IH (count + 1) s).
  destruct (add_images target (count + 1) images s) as [[o s'] t].
  unfold events in *; simpl in *. exact IH.
Qed.

End image_ids.

(** C3: in one call of [_addWindowsIconFromIcons] the group icon
    resources written are, in order, a six byte header followed by the
    entries of the icons kept, and the ids of all these entries, across the
    icon files in input order, are 1, 2, 3, ... without a restart; this
    holds for every call, whatever happened before it.  Two icon files with
    2 and 3 icons get the ids 1, 2 and 3, 4, 5; a second call, as for the
    onefile binary, starts at 1 again. *)
Theorem image_ids_count_on_from_1 (env : Environment) (onefile : bool) (s : state) :
  (∃ groups : list (bytes * list (bytes * Z)),
     group_icon_data (events (_addWindowsIconFromIcons env onefile s))
     = (λ g, group_payload g.1 g.2) <$> groups
     ∧ Forall (λ g, length g.1 = 6%nat) groups
     ∧ concat ((λ g, g.2.*2) <$> groups)
       = seqZ 1 (Z.of_nat (length (concat (snd <$> groups)))))
  ∧ group_ids
      <$> group_icon_data
            (events (_addWindowsIconFromIcons (Sample.env ["two.ico"; "three.ico"])
                       false Sample.start))
    = [[1; 2]; [3; 4; 5]]
  ∧ group_ids
      <$> group_icon_data
            (events ((_addWindowsIconFromIcons (Sample.env ["two.ico"]) false;;
                      _addWindowsIconFromIcons (Sample.env ["two.ico"]) true)
                       Sample.start))
    = [[1; 2]; [1; 2]].
Proof.
  split; [|split; by vm_compute].
  unfold _addWindowsIconFromIcons. rewrite run_bind.
  destruct (add_icon_groups_ids env onefile (getResultFullpath env onefile) 1 []
              (getIconPaths (options env)) s) as (groups & Hdata & Hheaders).
  destruct (add_icon_groups _ _ _ _ _ _ _ s) as [[o1 s1] t1].
  unfold events in Hdata; simpl in Hdata.
  exists (number 1 groups).
  split; [|split; [by apply number_headers|by rewrite number_ids, number_length]].
  destruct o1 as [[image_id images]|msg|e]; [|done..].
  pose proof (add_images_group_icon_data (getResultFullpath env onefile) 1 images s1)
    as Himages.
  destruct (add_images _ _ _ s1) as [[o2 s2] t2].
  unfold events in *; simpl in *.
  unfold group_icon_data in *. by rewrite omap_app, Himages, app_nil_r.
Qed.

(** The [id] field is a signed 16 bit field: an id up to 32767 is read back
    as it was given. *)
Lemma group_entry_id (icon : bytes) (image_id : Z) :
  0 ≤ image_id < 32768 →
  getattr IconGroupDirectoryEntry (group_entry icon image_id) "id" = image_id.
Proof.
  intros Hid.
  change (getattr IconGroupDirectoryEntry (group_entry icon image_id) "id")
    with (of_le_signed (to_le 2 image_id)).
  unfold of_le_signed. rewrite of_le_to_le, length_to_le.
  change (2 ^ (8 * Z.of_nat 2 - 1)) with 32768.
  change (256 ^ Z.of_nat 2) with 65536.
  rewrite Z.mod_small by lia.
  destruct (image_id <? 32768) eqn:E; [done|]. apply Z.ltb_ge in E. lia.
Qed.

(** * Further properties of the module *)

(** ** Fields of the structures: storing and reading back *)

Lemma byte_of_Z_of_byte (b : byte) : byte_of_Z (Z_of_byte b) = b.
Proof.
  unfold byte_of_Z, Z_of_byte. pose proof (Byte.to_N_bounded b).
  rewrite Z.mod_small by lia. rewrite N2Z.id, Byte.of_to_N. reflexivity.
Qed.

Lemma byte_of_Z_mod (z : Z) : byte_of_Z (z mod 256) = byte_of_Z z.
Proof. unfold byte_of_Z. by rewrite Z.mod_mod. Qed.

Lemma to_le_mod (n : nat) (z : Z) : to_le n (z mod 256 ^ Z.of_nat n) = to_le n z.
Proof.
  revert z. induction n as [|n IH]; intros z; [done|].
  cbn [to_le]. rewrite Nat2Z.inj_succ, Z.pow_succ_r by lia.
  rewrite Z.rem_mul_r by lia.
  pose proof (Z.mod_pos_bound z 256 eq_refl).
  set (q := (z `div` 256) `mod` 256 ^ Z.of_nat n).
  f_equal.
  - rewrite <- (byte_of_Z_mod (_ + _)), <- (byte_of_Z_mod z). f_equal.
    rewrite (Z.mul_comm 256 q), Z.mod_add by lia.
    apply Z.mod_mod. lia.
  - rewrite (Z.mul_comm 256 q), Z.div_add by lia.
    rewrite Z.div_small by lia. apply IH.
Qed.

Lemma of_le_range (bs : bytes) : 0 ≤ of_le bs < 256 ^ Z.of_nat (length bs).
Proof.
  induction bs as [|b bs IH]; [simpl; lia|].
  cbn [of_le length]. rewrite Nat2Z.inj_succ, Z.pow_succ_r by lia.
  pose proof (Z_of_byte_range b). lia.
Qed.

Lemma to_le_of_le (bs : bytes) : to_le (length bs) (of_le bs) = bs.
Proof.
  induction bs as [|b bs IH]; [done|].
  cbn [to_le of_le length]. pose proof (Z_of_byte_range b). f_equal.
  - rewrite <- (byte_of_Z_mod (_ + _)).
    rewrite (Z.mul_comm 256 _), Z.mod_add by lia.
    rewrite Z.mod_small by lia. apply byte_of_Z_of_byte.
  - rewrite (Z.mul_comm 256 _), Z.div_add by lia.
    rewrite Z.div_small by lia. done.
Qed.

Lemma pow_2_8 (n : nat) : 2 ^ (8 * Z.of_nat n) = 256 ^ Z.of_nat n.
Proof. rewrite Z.pow_mul_r by lia. reflexivity. Qed.

(** Storing the signed value of a field gives the bytes of the field back. *)
Lemma to_le_of_le_signed (bs : bytes) : to_le (length bs) (of_le_signed bs) = bs.
Proof.
  unfold of_le_signed. destruct (_ <? _); [apply to_le_of_le|].
  rewrite <- to_le_mod. rewrite pow_2_8.
  replace (of_le bs - 256 ^ Z.of_nat (length bs))
    with (of_le bs + (-1) * 256 ^ Z.of_nat (length bs)) by lia.
  rewrite Z.mod_add by (apply Z.pow_nonzero; lia).
  rewrite to_le_mod. apply to_le_of_le.
Qed.

(** X1: a value within the signed range of a field of [n] bytes is read
    back as it was stored; any other value is stored modulo [2^(8n)]: it
    reads back as the value of the same residue within the signed range. *)
Theorem signed_field_round_trip (n : nat) (z : Z) :
  (0 < n)%nat →
  (- 2 ^ (8 * Z.of_nat n - 1) ≤ z < 2 ^ (8 * Z.of_nat n - 1) →
   of_le_signed (to_le n z) = z)
  ∧ - 2 ^ (8 * Z.of_nat n - 1) ≤ of_le_signed (to_le n z) < 2 ^ (8 * Z.of_nat n - 1)
  ∧ (of_le_signed (to_le n z) - z) mod 2 ^ (8 * Z.of_nat n) = 0.
Proof.
  intros Hn.
  assert (2 ^ (8 * Z.of_nat n) = 2 * 2 ^ (8 * Z.of_nat n - 1)) as Hpow.
  { rewrite <- Z.pow_succ_r by lia. f_equal. lia. }
  assert (0 < 2 ^ (8 * Z.of_nat n - 1)) as Hpos by (apply Z.pow_pos_nonneg; lia).
  unfold of_le_signed. rewrite of_le_to_le, length_to_le, <- pow_2_8.
  set (m := 2 ^ (8 * Z.of_nat n)) in *. set (h := 2 ^ (8 * Z.of_nat n - 1)) in *.
  pose proof (Z.mod_pos_bound z m ltac:(lia)) as Hmod.
  pose proof (Z.div_mod z m ltac:(lia)) as Hdiv.
  split; [|split].
  - intros Hz. destruct (z mod m <? h) eqn:E.
    + apply Z.ltb_lt in E. assert (z `div` m = 0) by nia. nia.
    + apply Z.ltb_ge in E. assert (z `div` m = -1) by nia. nia.
  - destruct (z mod m <? h) eqn:E;
      [apply Z.ltb_lt in E | apply Z.ltb_ge in E]; lia.
  - destruct (z mod m <? h).
    + replace (z mod m - z) with ((- (z `div` m)) * m) by lia.
      apply Z.mod_mul. lia.
    + replace (z mod m - m - z) with ((- (z `div` m) - 1) * m) by lia.
      apply Z.mod_mul. lia.
Qed.

(** The size 1128 in a field of two bytes. *)
Lemma signed_field_round_trip_sample :
  of_le_signed (to_le 2 1128) = 1128
  ∧ - 2 ^ (8 * Z.of_nat 2 - 1) ≤ of_le_signed (to_le 2 1128) < 2 ^ (8 * Z.of_nat 2 - 1)
  ∧ (of_le_signed (to_le 2 1128) - 1128) mod 2 ^ (8 * Z.of_nat 2) = 0.
Proof.
  destruct (signed_field_round_trip 2 1128) as (Hsame & Hrange & Hmod); [lia|].
  split; [apply Hsame; lia|]. split; [exact Hrange|exact Hmod].
Defined.

(** ** From a directory entry to a group entry *)

Lemma group_entry_bytes (icon : bytes) (image_id : Z) :
  length icon = 16%nat →
  convertStructureToBytes (group_entry icon image_id) = take 12 icon ++ to_le 2 image_id.
Proof.
  intros Hlen.
  do 16 (destruct icon as [|? icon]; [discriminate Hlen|]).
  destruct icon; [|discriminate Hlen]. clear Hlen.
  match goal with
  | |- convertStructureToBytes
         (group_entry [?b0; ?b1; ?b2; ?b3; ?b4; ?b5; ?b6; ?b7; ?b8; ?b9; ?b10; ?b11;
                       _; _; _; _] _) = _ =>
      change (to_le 1 (of_le [b0]) ++ to_le 1 (of_le [b1]) ++ to_le 1 (of_le [b2])
              ++ to_le 1 (of_le [b3]) ++ to_le 2 (of_le_signed [b4; b5])
              ++ to_le 2 (of_le_signed [b6; b7])
              ++ to_le 4 (of_le_signed [b8; b9; b10; b11]) ++ to_le 2 image_id
              = [b0; b1; b2; b3; b4; b5; b6; b7; b8; b9; b10; b11] ++ to_le 2 image_id);
      rewrite (to_le_of_le [b0] : to_le 1 _ = _), (to_le_of_le [b1] : to_le 1 _ = _),
        (to_le_of_le [b2] : to_le 1 _ = _), (to_le_of_le [b3] : to_le 1 _ = _),
        (to_le_of_le_signed [b4; b5] : to_le 2 _ = _),
        (to_le_of_le_signed [b6; b7] : to_le 2 _ = _),
        (to_le_of_le_signed [b8; b9; b10; b11] : to_le 4 _ = _)
  end.
  reflexivity.
Qed.

(** X2: the group entry built for a directory entry of 16 bytes is the
    first 12 bytes of that entry, unchanged, followed by the image id in two
    bytes: only [image_offset] is replaced. *)
Theorem group_entry_copies_the_entry (icon : bytes) (image_id : Z) :
  length icon = 16%nat →
  convertStructureToBytes (group_entry icon image_id) = take 12 icon ++ to_le 2 image_id.
Proof. apply group_entry_bytes. Qed.

(** The first entry of the sample file with two icons. *)
Lemma group_entry_copies_the_entry_sample :
  convertStructureToBytes (group_entry (Sample.ico_entry 16 16 1 32 3 38) 7)
  = take 12 (Sample.ico_entry 16 16 1 32 3 38) ++ to_le 2 7.
Proof. apply (group_entry_copies_the_entry (Sample.ico_entry 16 16 1 32 3 38) 7). reflexivity. Defined.

(** ** Reading a well-formed icon file *)

Section reading.
Context (env : Environment).

Lemma readFromFile_complete f c s :
  (file_pos f + sizeof c ≤ length (file_data f))%nat →
  readFromFile env f c s =
  (Return (take (sizeof c) (drop (file_pos f) (file_data f)), advance f (sizeof c)), s,
   [Read (file_name f) (file_pos f) (Z.of_nat (sizeof c))]).
Proof.
  intros Hlen. unfold readFromFile, file_read. rewrite run_bind.
  rewrite (proj2 (Z.ltb_ge (Z.of_nat (sizeof c)) (-1))) by lia.
  rewrite (proj2 (Z.eqb_neq (Z.of_nat (sizeof c)) (-1))) by lia.
  rewrite run_bind. simpl. rewrite Nat2Z.id.
  assert (length (take (sizeof c) (drop (file_pos f) (file_data f))) = sizeof c) as Hchunk.
  { rewrite length_take, length_drop. lia. }
  unfold new. rewrite length_replicate, Hchunk, Nat.sub_diag. simpl.
  by rewrite app_nil_r.
Qed.

Lemma entries_from_S data pos n :
  entries_from data pos (S n) = take 16 (drop pos data) :: entries_from data (pos + 16) n.
Proof.
  unfold entries_from. cbn [seq fmap list_fmap]. f_equal.
  - by rewrite Nat.mul_0_r, Nat.add_0_r.
  - rewrite <- fmap_S_seq, <- list_fmap_compose. apply list_fmap_ext.
    intros _ k _. simpl. do 2 f_equal. lia.
Qed.

Lemma read_entries_complete f n s :
  (file_pos f + 16 * n ≤ length (file_data f))%nat →
  read_entries env f n s =
  (Return (entries_from (file_data f) (file_pos f) n, advance f (16 * n)), s,
   (λ k, Read (file_name f) (file_pos f + 16 * k) 16) <$> seq 0 n).
Proof.
  revert f. induction n as [|n IH]; intros f Hlen.
  - simpl. unfold advance. rewrite Nat.add_0_r. by destruct f.
  - cbn [read_entries]. rewrite run_bind.
    rewrite readFromFile_complete by (rewrite sizeof_IconDirectoryEntry; lia).
    rewrite sizeof_IconDirectoryEntry. cbv beta iota. rewrite run_bind.
    rewrite (IH (advance f 16)) by (simpl; lia).
    unfold mret, M_ret. cbv beta iota. rewrite entries_from_S, app_nil_r. cbn [app].
    cbn [seq fmap list_fmap]. rewrite Nat.mul_0_r, Nat.add_0_r.
    rewrite <- fmap_S_seq, <- list_fmap_compose.
    f_equal; [f_equal; f_equal|f_equal].
    + unfold advance. cbn [file_name file_data file_pos].
      by replace (file_pos f + 16 * S n)%nat with (file_pos f + 16 + 16 * n)%nat by lia.
    + apply list_fmap_ext. intros _ k _. unfold advance.
      cbn [file_name file_pos compose]. f_equal. lia.
Qed.

End reading.

(** X3: when the file still holds [n] whole directory entries,
    [read_entries] returns them in file order, each the next 16 bytes, and
    leaves the position behind the last one. *)
Theorem read_entries_in_file_order (env : Environment) (f : file) (n : nat) (s : state) :
  (file_pos f + 16 * n ≤ length (file_data f))%nat →
  read_entries env f n s =
  (Return (entries_from (file_data f) (file_pos f) n, advance f (16 * n)), s,
   (λ k, Read (file_name f) (file_pos f + 16 * k) 16) <$> seq 0 n)
  ∧ Forall (λ icon, length icon = 16%nat) (entries_from (file_data f) (file_pos f) n).
Proof.
  intros Hlen. split; [by apply read_entries_complete|].
  unfold entries_from. apply Forall_fmap, Forall_forall. intros k Hk. simpl.
  apply elem_of_seq in Hk. rewrite length_take, length_drop. lia.
Qed.

(** The directory of the sample file with three icons. *)
Lemma read_entries_in_file_order_sample :
  let f := {| file_name := "three.ico"; file_data := Sample.three_ico; file_pos := 6 |} in
  read_entries (Sample.env []) f 3 Sample.start =
  (Return (entries_from Sample.three_ico 6 3, advance f (16 * 3)), Sample.start,
   (λ k, Read "three.ico" (6 + 16 * k) 16) <$> seq 0 3)
  ∧ Forall (λ icon, length icon = 16%nat) (entries_from Sample.three_ico 6 3).
Proof.
  apply (read_entries_in_file_order (Sample.env [])
           {| file_name := "three.ico"; file_data := Sample.three_ico; file_pos := 6 |}
           3 Sample.start).
  vm_compute. lia.
Defined.

Lemma read_images_complete (f : file) (icons images : list bytes) (s : state) :
  Forall readable_image icons →
  ∃ f',
    read_images f icons images s =
    (Return (images ++ (image_of (file_data f) <$> icons), f'), s,
     image_events (file_name f) icons)
    ∧ file_name f' = file_name f ∧ file_data f' = file_data f.
Proof.
  intros Hicons. revert f images.
  induction Hicons as [|icon icons [Hoff Hsize] _ IH]; intros f images.
  - exists f. simpl. by rewrite app_nil_r.
  - cbn [read_images]. rewrite run_bind. unfold file_seek.
    rewrite (proj2 (Z.ltb_ge _ 0)) by lia.
    rewrite run_bind. unfold emit at 1, mret at 1, M_ret at 1. cbv beta iota.
    rewrite run_bind. unfold file_read.
    rewrite (proj2 (Z.ltb_ge _ (-1))) by lia.
    rewrite run_bind. unfold emit at 1, mret at 1, M_ret at 1. cbv beta iota.
    cbn [file_name file_data file_pos].
    match goal with
    | |- context [read_images ?f1 icons ?images1 s] =>
        destruct (IH f1 images1) as (f' & -> & Hname & Hdata)
    end.
    cbn [file_name file_data] in Hname, Hdata.
    exists f'. split; [|done].
    cbn [fmap list_fmap]. unfold image_of at 2.
    rewrite <- app_assoc. reflexivity.
Qed.

(** X4: for entries with an offset of at least 0 and a size of at least
    -1, [read_images] appends to the images one image for each entry, in
    order: the [image_size] bytes that start at [image_offset], as far as the
    file goes (all the rest of the file for size -1); the bytes between the
    images are never read. *)
Theorem read_images_extracts_the_images (f : file) (icons images : list bytes)
    (s : state) :
  Forall readable_image icons →
  (∃ f',
     read_images f icons images s =
     (Return (images ++ (image_of (file_data f) <$> icons), f'), s,
      image_events (file_name f) icons))
  ∧ Forall (λ icon,
        let offset := Z.to_nat (getattr IconDirectoryEntry icon "image_offset") in
        let size := getattr IconDirectoryEntry icon "image_size" in
        0 ≤ size →
        length (image_of (file_data f) icon)
        = (Z.to_nat size `min` (length (file_data f) - offset))%nat) icons.
Proof.
  intros Hicons. split.
  - destruct (read_images_complete f icons images s Hicons) as (f' & E & _). eauto.
  - apply Forall_forall. intros icon _ offset size Hsize. unfold image_of.
    fold offset size. rewrite (proj2 (Z.eqb_neq size (-1))) by lia.
    by rewrite length_take, length_drop.
Qed.

(** The images of the sample file with two icons. *)
Lemma read_images_extracts_the_images_sample :
  let f := {| file_name := "two.ico"; file_data := Sample.two_ico; file_pos := 38 |} in
  let icons := directory Sample.two_ico 2 in
  (∃ f',
     read_images f icons [] Sample.start =
     (Return ([] ++ (image_of Sample.two_ico <$> icons), f'), Sample.start,
      image_events "two.ico" icons))
  ∧ Forall (λ icon,
        let offset := Z.to_nat (getattr IconDirectoryEntry icon "image_offset") in
        let size := getattr IconDirectoryEntry icon "image_size" in
        0 ≤ size →
        length (image_of Sample.two_ico icon)
        = (Z.to_nat size `min` (length Sample.two_ico - offset))%nat) icons.
Proof.
  apply (read_images_extracts_the_images
           {| file_name := "two.ico"; file_data := Sample.two_ico; file_pos := 38 |}
           (directory Sample.two_ico 2) [] Sample.start).
  repeat constructor; vm_compute; discriminate.
Defined.

Lemma select_icons_accepts icon_path (icon_index : option Z) (icons : list bytes) s :
  (if icon_index is Some i then i ≤ Z.of_nat (length icons) else True) →
  select_icons icon_path icon_index icons s = (Return (kept_icons icon_index icons), s, []).
Proof.
  intros Hi. unfold select_icons. destruct icon_index as [i|]; [|done].
  rewrite run_bind. destruct (i >? Z.of_nat (length icons)) eqn:E; [lia|]. done.
Qed.

Lemma length_entries_from data pos n : length (entries_from data pos n) = n.
Proof. unfold entries_from. by rewrite length_fmap, length_seq. Qed.

Lemma open_existing filename data s :
  fs s !! filename = Some data →
  open filename s =
  (Return {| file_name := filename; file_data := data; file_pos := 0 |}, s,
   [Open filename]).
Proof. intros Hdata. unfold open. rewrite run_bind. simpl. by rewrite Hdata. Qed.

Lemma read_icon_file_complete (env : Environment) (icon_spec icon_path : string)
    (icon_index : option Z) (images : list bytes) (s : state) (data : bytes) :
  fs s !! icon_path = Some data →
  (6 + 16 * announced data ≤ length data)%nat →
  (if icon_index is Some i then i ≤ Z.of_nat (announced data) else True) →
  let kept := kept_icons icon_index (directory data (announced data)) in
  Forall readable_image kept →
  read_icon_file env icon_spec icon_path icon_index images s =
  (Return (take 6 data, kept, images ++ (image_of data <$> kept)), s,
   directory_events icon_path (announced data)
   ++ [Info ("Adding " +:+ fmt_d (Z.of_nat (length kept))
             +:+ " icon(s) from icon file '" +:+ icon_spec +:+ "'.")]
   ++ image_events icon_path kept).
Proof.
  intros Hdata Hlen Hindex kept Hkept.
  unfold read_icon_file. rewrite run_bind, (open_existing _ _ _ Hdata).
  set (f0 := {| file_name := icon_path; file_data := data; file_pos := 0 |}).
  rewrite run_bind.
  rewrite (readFromFile_complete env f0 IconDirectoryHeader s)
    by (rewrite sizeof_IconDirectoryHeader; simpl; lia).
  rewrite sizeof_IconDirectoryHeader. cbv beta iota. rewrite run_bind.
  change (take 6 (drop (file_pos f0) (file_data f0))) with (take 6 data).
  fold (announced data).
  rewrite (read_entries_complete env (advance f0 6) (announced data) s)
    by (simpl; lia).
  change (entries_from (file_data (advance f0 6)) (file_pos (advance f0 6))
            (announced data)) with (directory data (announced data)).
  cbv beta iota. rewrite run_bind.
  rewrite select_icons_accepts
    by (unfold directory; rewrite length_entries_from; exact Hindex).
  fold kept. rewrite run_bind. unfold emit at 1. cbv beta iota.
  rewrite run_bind.
  destruct (read_images_complete (advance (advance f0 6) (16 * announced data))
              kept images s Hkept) as (f' & -> & _ & _).
  unfold mret, M_ret. cbv beta iota. rewrite !app_nil_r.
  reflexivity.
Qed.



(** ** One icon file, from the specification to the group icon *)

Lemma add_icon_group_complete (env : Environment) (onefile : bool)
    (target : string) (icon_group image_id : Z) (images : list bytes)
    (icon_spec icon_path : string) (icon_index : option Z) (s : state) (data : bytes) :
  split_icon_spec icon_spec s = (Return (icon_path, icon_index), s, []) →
  endswith (normcase (os_path env) icon_path) ".ico" = true →
  fs s !! normcase (os_path env) icon_path = Some data →
  (6 + 16 * announced data ≤ length data)%nat →
  (if icon_index is Some i then i ≤ Z.of_nat (announced data) else True) →
  let kept := kept_icons icon_index (directory data (announced data)) in
  Forall readable_image kept →
  let r := add_icon_group env onefile target icon_group image_id images icon_spec s in
  result r = Return (image_id + Z.of_nat (length kept),
                     images ++ (image_of data <$> kept))
  ∧ final r = s
  ∧ events r =
      directory_events (normcase (os_path env) icon_path) (announced data)
      ++ [Info ("Adding " +:+ fmt_d (Z.of_nat (length kept))
                +:+ " icon(s) from icon file '" +:+ icon_spec +:+ "'.")]
      ++ image_events (normcase (os_path env) icon_path) kept
      ++ [AddResource target RT_GROUP_ICON icon_group 0
            (group_payload (take 6 data)
               (zip kept (seqZ image_id (Z.of_nat (length kept)))))].
Proof.
  intros Hsplit Hends Hdata Hlen Hindex kept Hkept r.
  assert (r = (Return (image_id + Z.of_nat (length kept),
                       images ++ (image_of data <$> kept)), s,
               (directory_events (normcase (os_path env) icon_path) (announced data)
                ++ [Info ("Adding " +:+ fmt_d (Z.of_nat (length kept))
                          +:+ " icon(s) from icon file '" +:+ icon_spec +:+ "'.")]
                ++ image_events (normcase (os_path env) icon_path) kept)
               ++ [AddResource target RT_GROUP_ICON icon_group 0
                     (group_payload (take 6 data)
                        (zip kept (seqZ image_id (Z.of_nat (length kept)))))])) as ->.
  { subst r. unfold add_icon_group. rewrite run_bind, Hsplit. cbv beta iota.
    rewrite run_bind. unfold convert_icon. rewrite Hends. cbn [negb].
    unfold mret at 1, M_ret at 1. cbv beta iota.
    rewrite run_bind.
    rewrite (read_icon_file_complete env icon_spec _ icon_index images s data
               Hdata Hlen Hindex Hkept).
    fold kept. cbv beta iota. rewrite group_parts_spec. rewrite run_bind.
    unfold addResourceToFile, emit, mret, M_ret. cbv beta iota.
    rewrite app_nil_r. reflexivity. }
  unfold result, events, final. cbn [fst snd].
  repeat split. by rewrite <- !app_assoc.
Qed.



(** ** The index of an icon specification *)

(** X7: with an index, the selection either ends the run, and then the
    index is above the number of icons, or keeps at most one icon, and then
    one of those parsed; it never raises. *)
Theorem select_icons_keeps_at_most_one (icon_path : string) (i : Z)
    (icons : list bytes) (s : state) :
  match result (select_icons icon_path (Some i) icons s) with
  | Return kept => (length kept ≤ 1)%nat ∧ kept `sublist_of` icons
  | SysExit _ => Z.of_nat (length icons) < i
  | Raise _ => False
  end.
Proof.
  unfold select_icons. rewrite run_bind.
  destruct (i >? Z.of_nat (length icons)) eqn:E; unfold result; simpl; [lia|].
  unfold slice. split.
  - rewrite length_take. unfold slice_bound.
    destruct (i <? 0) eqn:E1, (i + 1 <? 0) eqn:E2; lia.
  - etrans; [apply sublist_take|apply sublist_drop].
Qed.

Lemma slice_negative {A} (l : list A) (i : Z) :
  i < 0 →
  slice l i (i + 1) =
  if (i =? -1) || (i <? - Z.of_nat (length l)) then []
  else option_list (l !! Z.to_nat (Z.of_nat (length l) + i)).
Proof.
  intros Hi. unfold slice, slice_bound.
  rewrite (proj2 (Z.ltb_lt i 0)) by lia.
  destruct (i =? -1) eqn:E1; cbn [orb].
  - apply Z.eqb_eq in E1. rewrite (proj2 (Z.ltb_ge (i + 1) 0)) by lia.
    match goal with |- take ?k _ = _ => replace k with 0%nat by lia end. done.
  - apply Z.eqb_neq in E1. rewrite (proj2 (Z.ltb_lt (i + 1) 0)) by lia.
    destruct (i <? - Z.of_nat (length l)) eqn:E2.
    + apply Z.ltb_lt in E2.
      match goal with |- take ?k _ = _ => replace k with 0%nat by lia end. done.
    + apply Z.ltb_ge in E2.
      match goal with |- take ?k _ = _ => replace k with 1%nat by lia end.
      replace (Z.max 0 (i + Z.of_nat (length l)))
        with (Z.of_nat (length l) + i) by lia.
      destruct (l !! Z.to_nat (Z.of_nat (length l) + i)) as [x|] eqn:E3.
      * by rewrite (drop_S _ _ _ E3).
      * apply lookup_ge_None in E3. lia.
Qed.

(** X8: a negative index is never refused.  Index -1 and an index below
    minus the number of icons keep no icon; an index [-k] in between keeps
    the [k]-th icon from the end. *)
Theorem negative_icon_index (icon_path : string) (i : Z) (icons : list bytes)
    (s : state) :
  i < 0 →
  select_icons icon_path (Some i) icons s =
  (Return (if (i =? -1) || (i <? - Z.of_nat (length icons)) then []
           else option_list (icons !! Z.to_nat (Z.of_nat (length icons) + i))),
   s, []).
Proof.
  intros Hi. unfold select_icons. rewrite run_bind.
  rewrite Z.gtb_ltb, (proj2 (Z.ltb_ge _ _)) by lia.
  unfold mret, M_ret. cbv beta iota. by rewrite slice_negative.
Qed.

(** The sample file with two icons, asked for index -2. *)
Lemma negative_icon_index_sample :
  select_icons "two.ico" (Some (-2)) (directory Sample.two_ico 2) Sample.start =
  (Return (if (-2 =? -1) || (-2 <? - Z.of_nat (length (directory Sample.two_ico 2)))
           then []
           else option_list
                  (directory Sample.two_ico 2
                   !! Z.to_nat (Z.of_nat (length (directory Sample.two_ico 2)) + -2))),
   Sample.start, []).
Proof.
  apply (negative_icon_index "two.ico" (-2) (directory Sample.two_ico 2) Sample.start).
  lia.
Defined.

(** ** Icon specifications: path and index *)


















(** ** The icon resources and the entries that name them *)

Lemma length_group_entry (icon : bytes) (image_id : Z) :
  length (group_entry icon image_id) = 14%nat.
Proof. reflexivity. Qed.

Lemma entry_ids_length (n : nat) (entries : bytes) : length (entry_ids n entries) = n.
Proof. revert entries. induction n as [|n IH]; intros entries; simpl; auto. Qed.

Lemma length_group_payload (header : bytes) (entries : list (bytes * Z)) :
  length (group_payload header entries) = (length header + 14 * length entries)%nat.
Proof.
  unfold group_payload. rewrite length_app. f_equal.
  induction entries as [|e entries IH]; [done|].
  cbn [fmap list_fmap concat length]. rewrite length_app, length_group_entry.
  change (length (concat _)) with
    (length (concat ((λ e, group_entry e.1 e.2) <$> entries))).
  rewrite IH. lia.
Qed.

Lemma length_group_ids (header : bytes) (entries : list (bytes * Z)) :
  length header = 6%nat →
  length (group_ids (group_payload header entries)) = length entries.
Proof.
  intros Hh. unfold group_ids. rewrite entry_ids_length, length_group_payload, Hh.
  replace (6 + 14 * length entries - 6)%nat with (length entries * 14)%nat by lia.
  by apply Nat.div_mul.
Qed.

Lemma read_images_returns (f : file) (icons images : list bytes) :
  returns_with (λ a, length a.1 = (length images + length icons)%nat)
    (read_images f icons images).
Proof.
  revert f images. induction icons as [|icon icons IH]; intros f images.
  - simpl. apply returns_with_ret. simpl. lia.
  - cbn [read_images].
    apply (returns_with_bind (λ _, True)); [apply returns_with_any|]. intros f1 _.
    apply (returns_with_bind (λ _, True)); [apply returns_with_any|].
    intros [image f2] _. intros s a s' t Hrun.
    apply IH in Hrun. rewrite Hrun, length_app. simpl. lia.
Qed.

Section icon_resources.
Context (env : Environment).

Lemma read_icon_file_counts icon_spec icon_path icon_index images :
  returns_with (λ a, length a.2 = (length images + length a.1.2)%nat)
    (read_icon_file env icon_spec icon_path icon_index images).
Proof.
  unfold read_icon_file.
  apply (returns_with_bind (λ _, True)); [apply returns_with_any|]. intros f _.
  apply (returns_with_bind (λ _, True)); [apply returns_with_any|]. intros [header f1] _.
  apply (returns_with_bind (λ _, True)); [apply returns_with_any|]. intros [icons f2] _.
  apply (returns_with_bind (λ _, True)); [apply returns_with_any|]. intros icons' _.
  apply (returns_with_bind (λ _, True)); [apply returns_with_any|]. intros _ _.
  apply (returns_with_bind (λ a, length a.1 = (length images + length icons')%nat));
    [apply read_images_returns|]. intros [images' f3] Hlen.
  by apply returns_with_ret.
Qed.

Lemma add_icon_group_counts onefile target image_id images icon_spec :
  returns_with
    (λ a, Z.of_nat (length a.2) = Z.of_nat (length images) + (a.1 - image_id))
    (add_icon_group env onefile target 1 image_id images icon_spec).
Proof.
  unfold add_icon_group.
  apply (returns_with_bind (λ _, True)); [apply returns_with_any|].
  intros [icon_path icon_index] _.
  apply (returns_with_bind (λ _, True)); [apply returns_with_any|]. intros icon_path' _.
  apply (returns_with_bind (λ a, length a.2 = (length images + length a.1.2)%nat));
    [apply read_icon_file_counts|]. intros [[header icons] images'] Hlen.
  rewrite group_parts_spec.
  apply (returns_with_bind (λ _, True)); [apply returns_with_any|]. intros _ _.
  apply returns_with_ret. simpl in *. lia.
Qed.

(** The entries written by the body of the loop are as many as the counter
    advances. *)
Lemma add_icon_group_entries onefile target image_id images icon_spec s :
  let r := add_icon_group env onefile target 1 image_id images icon_spec s in
  match result r with
  | Return (image_id', images') =>
      Z.of_nat (length (concat (group_ids <$> group_icon_data (events r))))
      = image_id' - image_id
      ∧ Z.of_nat (length images') = Z.of_nat (length images) + (image_id' - image_id)
  | _ => True
  end.
Proof.
  intros r. subst r.
  pose proof (add_icon_group_ids env onefile target image_id images icon_spec s) as Hids.
  pose proof (add_icon_group_counts onefile target image_id images icon_spec s) as Hcount.
  simpl in Hids.
  destruct (add_icon_group _ _ _ _ _ _ _ s) as [[o s'] t].
  unfold result, events in *. simpl in *.
  destruct o as [[image_id' images']|msg|e]; [|done..].
  destruct Hids as (header & icons & Hh & -> & ->).
  specialize (Hcount _ _ _ eq_refl). simpl in Hcount.
  split; [|exact Hcount].
  cbn [fmap list_fmap concat]. rewrite app_nil_r, (length_group_ids _ _ Hh).
  rewrite length_zip, length_seqZ. lia.
Qed.

Lemma add_icon_groups_entries onefile target image_id images icon_specs s :
  let r := add_icon_groups env onefile target 1 image_id images icon_specs s in
  match result r with
  | Return (image_id', images') =>
      Z.of_nat (length (concat (group_ids <$> group_icon_data (events r))))
      = image_id' - image_id
      ∧ Z.of_nat (length images') = Z.of_nat (length images) + (image_id' - image_id)
  | _ => True
  end.
Proof.
  revert image_id images s.
  induction icon_specs as [|icon_spec icon_specs IH]; intros image_id images s.
  - simpl. lia.
  - cbn [add_icon_groups]. rewrite run_bind.
    pose proof (add_icon_group_entries onefile target image_id images icon_spec s) as H1.
    simpl in H1.
    destruct (add_icon_group _ _ _ _ _ _ _ s) as [[o1 s1] t1].
    unfold result, events in H1. simpl in H1.
    destruct o1 as [[image_id1 images1]|msg|e]; [|done..].
    destruct H1 as [Hentries1 Himages1].
    specialize (IH image_id1 images1 s1). simpl in IH.
    destruct (add_icon_groups _ _ _ _ _ _ _ s1) as [[o2 s2] t2].
    unfold result, events in *. simpl in *.
    destruct o2 as [[image_id2 images2]|msg|e]; [|done..].
    destruct IH as [Hentries2 Himages2].
    unfold group_icon_data in *. rewrite omap_app, fmap_app, concat_app, length_app.
    lia.
Qed.

Lemma icon_resources_none (t : list event) :
  Forall (λ e, match e with AddResource _ RT_ICON _ _ _ => False | _ => True end) t →
  icon_resources t = [].
Proof.
  induction 1 as [|e t He _ IH]; [done|].
  unfold icon_resources in *. destruct e; simpl in *; try done.
  by destruct kind.
Qed.

Lemma add_icon_groups_no_icon onefile target image_id images icon_specs s :
  icon_resources
    (events (add_icon_groups env onefile target 1 image_id images icon_specs s)) = [].
Proof.
  apply icon_resources_none.
  revert s. change (all_events
    (λ e, match e with AddResource _ RT_ICON _ _ _ => False | _ => True end)
    (add_icon_groups env onefile target 1 image_id images icon_specs)).
  revert image_id images.
  induction icon_specs as [|icon_spec icon_specs IH]; intros image_id images; simpl.
  - apply all_events_ret.
  - apply all_events_bind; [|intros [image_id' images']; apply IH].
    unfold add_icon_group, addResourceToFile. all_events.
    all: try (eapply all_events_impl;
              [|first [apply split_icon_spec_events | apply convert_icon_events
                      |apply read_icon_file_events]];
              by intros []).
Qed.

Lemma add_images_run target count images s :
  ∃ t, add_images target count images s = (Return (), s, t)
       ∧ icon_resources t = zip (seqZ count (Z.of_nat (length images))) images.
Proof.
  revert count. induction images as [|image images IH]; intros count.
  - by exists [].
  - cbn [add_images]. rewrite run_bind. unfold addResourceToFile, emit at 1.
    destruct (IH (count + 1)) as (t & -> & Ht).
    eexists. split; [reflexivity|].
    cbn [app length]. rewrite seqZ_cons by lia.
    unfold icon_resources in *. cbn [omap zip zip_with list_omap]. rewrite Ht.
    replace (Z.succ count) with (count + 1) by lia.
    by replace (Z.pred (Z.of_nat (S (length images)))) with (Z.of_nat (length images))
      by lia.
Qed.

End icon_resources.

Lemma add_images_exact target count images s :
  add_images target count images s =
  (Return (), s,
   (λ p, AddResource target RT_ICON p.1 0 p.2)
   <$> zip (seqZ count (Z.of_nat (length images))) images).
Proof.
  revert count. induction images as [|image images IH]; intros count; [done|].
  cbn [add_images]. rewrite run_bind. unfold addResourceToFile, emit at 1.
  cbv beta iota. rewrite IH. cbn [app length]. rewrite (seqZ_cons count) by lia.
  cbn [zip zip_with fmap list_fmap].
  replace (Z.succ count) with (count + 1) by lia.
  by replace (Z.pred (Z.of_nat (S (length images)))) with (Z.of_nat (length images))
    by lia.
Qed.

(** X10: the icon resources of one call.  They are written last, one
    after the other, behind everything else the call does, and they are
    named 1, 2, 3, ... in the order they are written.  When the call
    returns there are as many as there are entries in the group icons
    written, so that every entry id names an icon resource. *)
Theorem icon_resources_match_the_entries (env : Environment) (onefile : bool)
    (s : state) :
  let r := _addWindowsIconFromIcons env onefile s in
  let target := getResultFullpath env onefile in
  ∃ before images,
    events r
    = before ++ ((λ p, AddResource target RT_ICON p.1 0 p.2)
                 <$> zip (seqZ 1 (Z.of_nat (length images))) images)
    ∧ icon_resources before = []
    ∧ icon_resources (events r) = zip (seqZ 1 (Z.of_nat (length images))) images
    ∧ (icon_resources (events r)).*1 = seqZ 1 (Z.of_nat (length images))
    ∧ match result r with
      | Return _ =>
          length images = length (concat (group_ids <$> group_icon_data (events r)))
      | _ => True
      end.
Proof.
  intros r target. subst r. unfold _addWindowsIconFromIcons. rewrite run_bind.
  fold target.
  pose proof (add_icon_groups_entries env onefile target 1 []
                (getIconPaths (options env)) s) as Hentries.
  pose proof (add_icon_groups_no_icon env onefile target 1 []
                (getIconPaths (options env)) s) as Hnone.
  simpl in Hentries.
  destruct (add_icon_groups _ _ _ _ _ _ _ s) as [[o1 s1] t1].
  unfold result, events in *. cbn [fst snd] in *.
  destruct o1 as [[image_id images]|msg|e];
    [|exists t1, []; cbn [fst snd]; rewrite app_nil_r, Hnone; done..].
  destruct Hentries as [Hentries Himages].
  pose proof (add_images_group_icon_data target 1 images s1) as Hgroups.
  destruct (add_images_run target 1 images s1) as (t2 & E & Ht2).
  rewrite E in Hgroups. pose proof (add_images_exact target 1 images s1) as Eexact.
  rewrite E in Eexact. injection Eexact as ->. rewrite E. clear E.
  unfold events in Hgroups. cbn [fst snd] in *.
  exists t1, images. split; [done|]. split; [done|].
  unfold icon_resources, group_icon_data in *.
  rewrite !omap_app, Hnone, Hgroups, app_nil_r, Ht2. cbn [app].
  split; [done|]. split; [apply fst_zip; rewrite length_seqZ; lia | lia].
Qed.

(** ** The run as a whole *)

(** X11: when the result file does not exist the run ends at once with
    the message about scons: nothing is read, written or logged. *)
Theorem missing_result_file_ends_the_run (env : Environment) (s : state) :
  fs s !! getResultFullpath env false = None →
  executePostProcessing env s =
  (SysExit ("Error, scons failed to create the expected file "
            +:+ fmt_r (getResultFullpath env false) +:+ ". "), s, []).
Proof.
  intros Hmissing. unfold executePostProcessing. rewrite run_bind.
  unfold check_result_exists, os_path_exists. rewrite !run_bind. simpl.
  rewrite Hmissing. rewrite bool_decide_eq_false_2 by (by intros [? ?]). done.
Qed.

(** The Windows sample without any file. *)
Lemma missing_result_file_ends_the_run_sample :
  executePostProcessing (Sample.env ["one.ico"]) {| fs := ∅; version_resources := ∅ |} =
  (SysExit ("Error, scons failed to create the expected file " +:+ fmt_r "app.exe"
            +:+ ". "),
   {| fs := ∅; version_resources := ∅ |}, []).
Proof.
  apply (missing_result_file_ends_the_run (Sample.env ["one.ico"])
           {| fs := ∅; version_resources := ∅ |}).
  reflexivity.
Defined.

(** X12: off Windows no resource is written and no file is read or
    changed.  The run returns after at most two calls: [callInstallNameTool]
    on macOS for a program that is not linked statically, with the two
    mappings to the library under [sys.prefix]/lib and that directory as
    rpath, and [removeFileExecutablePermission] for a module. *)
Theorem off_windows_no_resources (env : Environment) (s : state) :
  isWin32Windows env = false →
  is_Some (fs s !! getResultFullpath env false) →
  let target := getResultFullpath env false in
  let lib := "libpython" +:+ (python_version_str env +:+ getPythonABI env) +:+ ".dylib" in
  let lib_path := join (os_path env) (sys_prefix env) "lib" in
  executePostProcessing env s =
  (Return (), s,
   (if String.eqb (getOS env) "Darwin" && negb (shallMakeModule (options env))
       && negb (shallUseStaticLibPython (options env))
    then [InstallNameTool target
            [(lib, join (os_path env) lib_path lib);
             ("@rpath/Python3.framework/Versions/" +:+ python_version_str env
              +:+ "/Python3", join (os_path env) lib_path lib)]
            lib_path]
    else [])
   ++ (if shallMakeModule (options env)
       then [RemoveFileExecutablePermission target] else [])).
Proof.
  intros Hwin Hexists target lib lib_path. unfold executePostProcessing.
  fold target. rewrite run_bind.
  assert (check_result_exists target s = (Return (), s, [])) as ->.
  { unfold check_result_exists, os_path_exists. rewrite !run_bind. simpl.
    by rewrite bool_decide_eq_true_2. }
  rewrite run_bind. unfold attach_windows_resources. rewrite Hwin.
  unfold mret at 1, M_ret at 1. cbv beta iota.
  rewrite run_bind. unfold update_library_paths, fix_module_file, write_run_script.
  rewrite Hwin. cbn [negb andb]. fold lib lib_path.
  destruct (_ && _ && _), (shallMakeModule (options env)); reflexivity.
Qed.

(** The macOS sample. *)
Lemma off_windows_no_resources_sample :
  executePostProcessing (Sample.darwin (Sample.icon_options ["one.ico"]))
    Sample.darwin_start =
  (Return (), Sample.darwin_start,
   [InstallNameTool "app.bin"
      [("libpython3.9.dylib", "/usr/local/lib/libpython3.9.dylib");
       ("@rpath/Python3.framework/Versions/3.9/Python3",
        "/usr/local/lib/libpython3.9.dylib")]
      "/usr/local/lib"]).
Proof.
  apply (off_windows_no_resources (Sample.darwin (Sample.icon_options ["one.ico"]))
           Sample.darwin_start); [reflexivity|by eexists].
Defined.

Lemma manifests_none (t : list event) :
  Forall (λ e, rank (step_of e) ≠ 0%nat) t → manifests t = [].
Proof.
  induction 1 as [|e t He _ IH]; [done|].
  unfold manifests in *. destruct e; simpl in *; done.
Qed.

Lemma attach_manifest_exact env target manifest s :
  ∃ t, attach_manifest env target manifest s = (Return (), s, t)
       ∧ length (manifests t)
         = (if shallAskForWindowsAdminRights (options env)
               || shallAskForWindowsUIAccessRights (options env)
               || given manifest
            then 1 else 0)%nat
       ∧ Forall (λ e, match e with
                      | ManifestAddResource t _ => t = target
                      | _ => True
                      end) t.
Proof.
  unfold attach_manifest.
  destruct (shallAskForWindowsAdminRights (options env)),
    (shallAskForWindowsUIAccessRights (options env)), manifest;
    eexists; (split; [reflexivity|]); simpl; split; try done; by repeat constructor.
Qed.

Lemma after_manifest_events env target onefile :
  all_events (λ e, rank (step_of e) ≠ 0%nat)
    (attach_version_info env target;; attach_icons env target onefile;;
     attach_splash_screen env target).
Proof.
  all_events.
  - eapply all_events_impl; [|apply attach_version_info_events]. simpl. lia.
  - unfold attach_icons. all_events.
    eapply all_events_impl; [|apply addWindowsIconFromIcons_events].
    intros e He. rewrite (icon_event_step _ _ He). lia.
  - eapply all_events_impl; [|apply attach_splash_screen_events]. simpl. lia.
Qed.

(** X13: [executePostProcessingResources] writes one manifest when a
    manifest was handed in or administrator or UI access rights are asked
    for, and none otherwise; it writes it first. *)
Theorem manifest_written_when_needed (env : Environment) (manifest : option Manifest)
    (onefile : bool) (s : state) :
  let r := executePostProcessingResources env manifest onefile s in
  let needed := shallAskForWindowsAdminRights (options env)
                || shallAskForWindowsUIAccessRights (options env)
                || given manifest in
  length (manifests (events r)) = (if needed then 1 else 0)%nat
  ∧ (if needed
     then ∃ m rest, events r = ManifestAddResource (getResultFullpath env onefile) m :: rest
     else True).
Proof.
  intros r needed. subst r. unfold executePostProcessingResources. rewrite run_bind.
  set (target := getResultFullpath env onefile).
  pose proof (after_manifest_events env target onefile s) as Hrest.
  unfold attach_manifest. fold needed.
  destruct (attach_version_info env target;; attach_icons env target onefile;;
            attach_splash_screen env target) as [[o s'] t] eqn:E.
  unfold events in Hrest; simpl in Hrest.
  apply manifests_none in Hrest.
  subst needed.
  destruct (shallAskForWindowsAdminRights (options env)),
    (shallAskForWindowsUIAccessRights (options env)), manifest as [m|];
    cbn [orb given default from_option]; unfold emit, mret, M_ret; cbv beta iota;
    rewrite E; unfold events; cbn [fst snd app];
    (split; [unfold manifests in *; cbn [omap list_omap]; by rewrite ?Hrest
            |try done; by do 2 eexists]).
Qed.

(** X14: with a template executable the icon files are not looked at,
    whatever the copy reports: the icon step is the call that copies and one
    warning, and it returns; a count other than zero is logged as a warning
    too. *)
Theorem template_replaces_the_icon_files (env : Environment) (target : string)
    (onefile : bool) (s : state) (template_exe : string) :
  getWindowsIconExecutablePath (options env) = Some template_exe →
  let res_copied :=
    copyResourcesFromFileToFile env template_exe target [RT_ICON; RT_GROUP_ICON] (fs s) in
  attach_icons env target onefile s =
  (Return (), s,
   [CopyResources template_exe target [RT_ICON; RT_GROUP_ICON];
    Warning (if res_copied =? 0
             then "The specified icon template executable " +:+ fmt_r template_exe
                  +:+ " didn't contain anything to copy."
             else "Copied " +:+ fmt_d res_copied +:+ " icon resources from "
                  +:+ fmt_r template_exe +:+ ".")]).
Proof.
  intros Htemplate res_copied. unfold attach_icons. rewrite Htemplate.
  rewrite run_bind. unfold get_state at 1. cbv beta iota.
  rewrite run_bind. unfold emit at 1. cbv beta iota. fold res_copied.
  by destruct (res_copied =? 0).
Qed.

(** A template from which five resources are copied. *)
Lemma template_replaces_the_icon_files_sample :
  attach_icons (Sample.copying (Sample.windows Sample.template_options None)) "app.exe"
    false Sample.start =
  (Return (), Sample.start,
   [CopyResources "C:\template.exe" "app.exe" [RT_ICON; RT_GROUP_ICON];
    Warning ("Copied " +:+ fmt_d 5 +:+ " icon resources from " +:+ fmt_r "C:\template.exe"
             +:+ ".")]).
Proof.
  apply (template_replaces_the_icon_files
           (Sample.copying (Sample.windows Sample.template_options None)) "app.exe"
           false Sample.start "C:\template.exe").
  reflexivity.
Defined.

(** X15: a module on Windows, without the run script.  When result file
    and constants blob exist the run returns; it attaches the blob and then
    deletes the import library [lib<name>.a] beside the module if that file
    exists; no other file is touched and nothing else is called. *)
Theorem module_import_library_is_removed (env : Environment) (s : state) (data : bytes) :
  isWin32Windows env = true →
  shallMakeModule (options env) = true →
  shallTreatUninstalledPython (options env) = false →
  is_Some (fs s !! getResultFullpath env false) →
  fs s !! getConstantBlobFilename env (getSourceDirectoryPath env false) = Some data →
  let blob :=
    [GetFileContents (getConstantBlobFilename env (getSourceDirectoryPath env false));
     AddResource (getResultFullpath env false) RT_RCDATA 3 0 data] in
  executePostProcessing env s =
  match fs s !! import_library env with
  | Some _ =>
      (Return (), set_fs (delete (import_library env)) s,
       blob ++ [Unlink (import_library env)])
  | None => (Return (), s, blob)
  end.
Proof.
  intros Hwin Hmod Htreat Hexists Hdata blob.
  unfold executePostProcessing. set (target := getResultFullpath env false) in *.
  rewrite run_bind.
  assert (check_result_exists target s = (Return (), s, [])) as ->.
  { unfold check_result_exists, os_path_exists. rewrite !run_bind. simpl.
    by rewrite bool_decide_eq_true_2. }
  rewrite run_bind.
  assert (attach_windows_resources env target s = (Return (), s, blob)) as ->.
  { unfold attach_windows_resources. rewrite Hwin, Hmod. simpl.
    rewrite run_bind. simpl. by rewrite (attach_constants_blob_run env target s data). }
  rewrite run_bind. unfold update_library_paths. rewrite Hmod.
  cbn [negb andb]. rewrite andb_false_r. cbn [andb].
  unfold mret at 1, M_ret at 1. cbv beta iota.
  rewrite run_bind. unfold fix_module_file. rewrite Hwin, Hmod. cbn [negb andb].
  rewrite run_bind. unfold mret at 1, M_ret at 1. cbv beta iota.
  fold target. fold (import_library env).
  unfold os_path_exists. rewrite !run_bind. simpl.
  unfold write_run_script. rewrite Hwin, Htreat. cbn [andb].
  destruct (fs s !! import_library env) as [lib|] eqn:Elib.
  - rewrite bool_decide_eq_true_2 by eauto. simpl. rewrite ?run_bind. simpl.
    by rewrite ?app_nil_r.
  - rewrite bool_decide_eq_false_2; [simpl; by rewrite ?app_nil_r|].
    intros [x Hx]. change (fs s !! import_library env = Some x) in Hx. congruence.
Qed.

(** The sample module with its import library. *)
Lemma module_import_library_is_removed_sample :
  executePostProcessing (Sample.windows Sample.module_options None) Sample.module_start =
  (Return (), set_fs (delete "libmod.a") Sample.module_start,
   [GetFileContents "build\__constants.bin";
    AddResource "mod.pyd" RT_RCDATA 3 0 (Sample.image 67 3); Unlink "libmod.a"]).
Proof.
  apply (module_import_library_is_removed (Sample.windows Sample.module_options None)
           Sample.module_start (Sample.image 67 3));
    [reflexivity|reflexivity|reflexivity|by eexists|reflexivity].
Defined.

Lemma resource_ok_before_the_blob (e : event) :
  resource_ok [27] e → (rank (step_of e) ≤ 3)%nat → before_the_blob e.
Proof.
  intros Hok Hrank. split.
  - intros E. rewrite E in Hrank. simpl in Hrank. lia.
  - intros target lang_id data ->. simpl in Hok. destruct Hok as [_ Hname].
    specialize (Hname eq_refl). apply list_elem_of_singleton in Hname. done.
Qed.

Lemma Forall_False_nil {A} (l : list A) : Forall (λ _, False) l → l = [].
Proof. by destruct 1. Qed.

Section failures.
Context (env : Environment).

Lemma resources_part_events :
  all_events (λ e, resource_ok [27] e ∧ (rank (step_of e) ≤ 3)%nat)
    (if negb (shallMakeModule (options env)) then
       manifest ← (if python_version env <? 768
                   then manifest ← getWindowsExecutableManifest (sys_executable env);
                        mret (Some manifest)
                   else mret None);
       executePostProcessingResources env manifest false
     else mret ()).
Proof.
  unfold getWindowsExecutableManifest. all_events.
  all: try (simpl; split; [done|lia]).
  all: intros s; apply Forall_forall; intros e He; split.
  all: try (by eapply (proj1 (Forall_forall _ _)
                         (executePostProcessingResources_ok env _ false s))).
  all: destruct (executePostProcessingResources_steps env a false s) as (_ & Hr & _);
    rewrite Forall_forall in Hr; apply Hr in He; lia.
Qed.

Lemma attach_windows_resources_failed target s :
  let r := attach_windows_resources env target s in
  result r ≠ Return () → Forall before_the_blob (events r).
Proof.
  intros r Hfailed. subst r. unfold attach_windows_resources in *.
  destruct (isWin32Windows env); [|done].
  rewrite run_bind in *.
  pose proof (resources_part_events s) as H1.
  match type of H1 with
  | Forall _ (events (?m s)) => destruct (m s) as [[o1 s1] t1]
  end.
  unfold events in H1. simpl in H1.
  assert (Forall before_the_blob t1) as Ht1.
  { eapply Forall_impl; [exact H1|]. intros e [? ?].
    by apply resource_ok_before_the_blob. }
  destruct o1 as [[]|msg|e]; [|done..].
  unfold attach_constants_blob, getFileContents in *.
  rewrite !run_bind in *. simpl in *.
  destruct (fs s1 !! getConstantBlobFilename env (getSourceDirectoryPath env false));
    simpl in *; [done|].
  unfold events. simpl. by rewrite app_nil_r.
Qed.

End failures.

(** X16: when [executePostProcessing] does not return, because of
    [sysexit] or an exception in one of the resource steps or a missing
    constants blob, the constants blob has not been attached and none of the
    steps after it (library paths, permission, import library, run script)
    has run. *)
Theorem after_a_failure_nothing_follows (env : Environment) (s : state) :
  let r := executePostProcessing env s in
  result r ≠ Return () → Forall before_the_blob (events r).
Proof.
  intros r Hfailed. subst r. unfold executePostProcessing in *.
  set (target := getResultFullpath env false) in *.
  rewrite run_bind in *.
  pose proof (check_result_exists_events (λ _, False) target s) as H0.
  destruct (check_result_exists target s) as [[o0 s0] t0].
  unfold events in H0. simpl in H0. apply Forall_False_nil in H0. subst t0.
  destruct o0 as [[]|msg|e]; [|done..].
  rewrite run_bind in *.
  pose proof (attach_windows_resources_failed env target s0) as H1. simpl in H1.
  destruct (attach_windows_resources env target s0) as [[o1 s1] t1].
  unfold result, events in H1. simpl in H1.
  destruct o1 as [[]|msg|e];
    [|unfold events; simpl; by apply H1..].
  destruct (later_steps_run env target s1) as (s2 & t2 & E2).
  rewrite E2 in Hfailed. by unfold result in Hfailed.
Qed.

(** An index given for a PNG file: the run ends in the icon step. *)
Lemma after_a_failure_nothing_follows_sample :
  Forall before_the_blob
    (events (executePostProcessing (Sample.env ["one.ico"; "logo.png#0"]) Sample.start)).
Proof.
  apply (after_a_failure_nothing_follows (Sample.env ["one.ico"; "logo.png#0"])
           Sample.start).
  vm_compute. discriminate.
Defined.

(** ** An icon file that is converted first *)




(** ** One icon file, from the specification to the resources *)



(** X19: an index that selects one entry of an ICO file.  The group icon
    written is the header of the file, as it is, followed by the one entry
    (its first 12 bytes and the image id): the count field of the header
    still holds the number of entries of the file, also when that is more
    than the one entry that follows. *)
Theorem indexed_group_keeps_the_file_header (env : Environment) (onefile : bool)
    (target : string) (icon_group image_id : Z) (images : list bytes)
    (icon_spec icon_path : string) (i : Z) (s : state) (data icon : bytes) :
  split_icon_spec icon_spec s = (Return (icon_path, Some i), s, []) →
  endswith (normcase (os_path env) icon_path) ".ico" = true →
  fs s !! normcase (os_path env) icon_path = Some data →
  (6 + 16 * announced data ≤ length data)%nat →
  0 ≤ i →
  directory data (announced data) !! Z.to_nat i = Some icon →
  readable_image icon →
  let r := add_icon_group env onefile target icon_group image_id images icon_spec s in
  (∃ before,
     events r =
       before ++ [AddResource target RT_GROUP_ICON icon_group 0
                    (take 6 data ++ take 12 icon ++ to_le 2 image_id)])
  ∧ result r = Return (image_id + 1, images ++ [image_of data icon])
  ∧ getattr IconDirectoryHeader (take 6 data) "count" = Z.of_nat (announced data).
Proof.
  intros Hsplit Hends Hdata Hlen Hi Hicon Hreadable r.
  pose proof (lookup_lt_Some _ _ _ Hicon) as Hlt.
  unfold directory in Hlt. rewrite length_entries_from in Hlt.
  assert (kept_icons (Some i) (directory data (announced data)) = [icon]) as Hkept
    by (by apply slice_one).
  destruct (add_icon_group_complete env onefile target icon_group image_id images
              icon_spec icon_path (Some i) s data Hsplit Hends Hdata Hlen)
    as (Hresult & _ & Hevents).
  { lia. }
  { rewrite Hkept. constructor; [exact Hreadable|constructor]. }
  fold r in Hresult, Hevents. rewrite Hkept in Hresult, Hevents.
  assert (length icon = 16%nat) as Hlen16.
  { apply list_elem_of_lookup_2 in Hicon. unfold directory, entries_from in Hicon.
    apply list_elem_of_fmap in Hicon as (k & -> & Hk). apply elem_of_seq in Hk.
    rewrite length_take, length_drop. lia. }
  assert (group_payload (take 6 data)
            (zip [icon] (seqZ image_id (Z.of_nat (length [icon]))))
          = take 6 data ++ take 12 icon ++ to_le 2 image_id) as Hpayload.
  { unfold group_payload. cbn [length]. rewrite (seqZ_cons image_id) by lia.
    cbn [zip zip_with fmap list_fmap concat fst snd]. rewrite app_nil_r.
    f_equal. apply (group_entry_bytes icon image_id Hlen16). }
  rewrite Hpayload in Hevents.
  split; [|split].
  - eexists. rewrite Hevents, !app_assoc. reflexivity.
  - rewrite Hresult. reflexivity.
  - unfold announced in *. lia.
Qed.

(** The second of the two icons of the sample file. *)
Lemma indexed_group_keeps_the_file_header_sample :
  let data := Sample.two_ico in
  let icon := Sample.ico_entry 32 32 1 32 5 41 in
  let r := add_icon_group (Sample.env []) false "app.exe" 1 1 [] "two.ico#1"
             Sample.start in
  (∃ before,
     events r =
       before ++ [AddResource "app.exe" RT_GROUP_ICON 1 0
                    (take 6 data ++ take 12 icon ++ to_le 2 1)])
  ∧ result r = Return (1 + 1, [] ++ [image_of data icon])
  ∧ getattr IconDirectoryHeader (take 6 data) "count" = Z.of_nat (announced data).
Proof.
  apply (indexed_group_keeps_the_file_header (Sample.env []) false "app.exe" 1 1 []
           "two.ico#1" "two.ico" 1 Sample.start Sample.two_ico
           (Sample.ico_entry 32 32 1 32 5 41)).
  - reflexivity.
  - reflexivity.
  - reflexivity.
  - vm_compute. lia.
  - lia.
  - reflexivity.
  - split; vm_compute; discriminate.
Defined.

(** ** Version information *)

(** X20: from [executePostProcessing] the version information is only
    written for an executable and with the file date (0, 0), and only when
    version strings, a product version or a file version are configured. *)
Theorem version_info_only_for_executables (env : Environment) (s : state) :
  Forall (λ e, match e with
               | AddVersionInfo _ string_values product_version file_version
                                file_date is_exe =>
                   is_exe = true ∧ file_date = (0, 0)
                   ∧ (string_values ≠ [] ∨ is_Some product_version
                      ∨ is_Some file_version)
               | _ => True
               end) (events (executePostProcessing env s)).
Proof.
  revert s. apply all_events_bind; [apply check_result_exists_events|]. intros _.
  apply all_events_bind; [|intros _].
  - unfold attach_windows_resources.
    destruct (isWin32Windows env); [|apply all_events_ret].
    apply all_events_bind; [|intros _].
    + destruct (shallMakeModule (options env)) eqn:Emod; [apply all_events_ret|].
      cbn [negb]. apply all_events_bind.
      { unfold getWindowsExecutableManifest. all_events. }
      intros manifest. unfold executePostProcessingResources.
      apply all_events_bind; [unfold attach_manifest; all_events|]. intros _.
      apply all_events_bind; [|intros _].
      { unfold attach_version_info. rewrite Emod.
        destruct (getWindowsVersionInfoStrings (options env)) as [|v vs] eqn:E1,
          (getWindowsProductVersion (options env)) as [pv|] eqn:E2,
          (getWindowsFileVersion (options env)) as [fv|] eqn:E3;
          cbn [nonempty given orb negb]; all_events; simpl;
          repeat split; eauto. }
      apply all_events_bind; [|intros _].
      { unfold attach_icons. all_events.
        eapply all_events_impl; [|apply addWindowsIconFromIcons_events].
        intros e He. by destruct e. }
      unfold attach_splash_screen, getFileContents, addResourceToFile. all_events.
    + unfold attach_constants_blob, getFileContents, addResourceToFile. all_events.
  - eapply all_events_impl; [|apply later_steps_events].
    intros e He. by destruct e.
Qed.
